(** * Lift Track API: a shallow embedding of [src/server.js]

    The server is a set of Express handlers, each an [async] function that
    awaits [pool.query], [bcrypt.hash] or [bcrypt.compare] and answers with
    [res.status(..).json(..)] or [res.status(..).send(..)].

    The development has three layers:
    - [Js]: the values the handlers move around (request fields, rows,
      response bodies), the SQL statements of the source and the handlers
      themselves, written in a small monad of awaited effects with
      [try]/[catch];
    - [Sem]: an interpreter of a handler against any environment that
      answers the three kinds of awaited calls, recording what the handler
      did as a list of events;
    - [Pg]: a model of the relational store behind [pool]: three tables, the
      reading of a bound parameter at the type of its column, a pool of
      sessions with their open transactions, and [pool.query] running one
      statement on a client of the pool's choice and returning the rows of a
      listing in an order of the store's choice. *)

From Stdlib Require Import ZArith String Ascii Bool Lia.
From stdpp Require Import base option list gmap strings pretty.

Set Warnings "-register-all".
Open Scope Z_scope.
Open Scope string_scope.

(** ** Values, rows and bodies *)

Module Js.

(** A field of a parsed JSON request body, a query parameter or a column of a
    result row.  [VUndefined] is what destructuring gives for a field that
    the body does not have.  Numbers are the integers; a field that holds an
    array or an object is left out. *)
Inductive value : Type :=
| VUndefined
| VNull
| VBool (b : bool)
| VNumber (n : Z)
| VString (s : string).

#[global] Instance value_eq_dec : EqDecision value.
Proof. solve_decision. Defined.

(** A JS object with scalar fields: [req.body], [req.params], a result row. *)
Definition object := list (string * value).

Fixpoint get (k : string) (o : object) : value :=
  match o with
  | [] => VUndefined
  | (k', v) :: o' => if String.eqb k k' then v else get k o'
  end.

(** What [res.json] serialises. *)
Inductive json : Type :=
| JVal (v : value)
| JRow (o : object)
| JRows (os : list object)
| JObj (fields : list (string * json)).

Inductive body : Type :=
| Json (j : json)     (* res.status(n).json(j) *)
| Text (s : string).  (* res.status(n).send(s) *)

(** [result.rows[0]] *)
Definition rows0 (rows : list object) : json :=
  match rows with
  | [] => JVal VUndefined
  | r :: _ => JRow r
  end.

(** ** The statements of the source

    One constructor for each SQL text that occurs in [server.js]; the
    arguments are the values bound to [$1], [$2], ... *)
Inductive stmt : Type :=
| Begin                                   (* BEGIN *)
| Commit                                  (* COMMIT *)
| Rollback                                (* ROLLBACK *)
| InsertUser (username password : value)
    (* INSERT INTO users (username, password) VALUES ($1, $2) RETURNING * *)
| SelectUser (username : value)
    (* SELECT * FROM users WHERE username = $1 *)
| InsertWorkoutPlan (user_id plan_name description : value)
    (* INSERT INTO workout_plan (user_id, plan_name, description)
       VALUES ($1, $2, $3) RETURNING * *)
| SelectWorkoutPlans (user_id : value)
    (* SELECT plan_id, plan_name, description FROM workout_plan
       WHERE user_id = $1 *)
| DeleteExercises (plan_id : value)
    (* DELETE FROM exercise WHERE plan_id = $1 *)
| DeleteWorkoutPlan (plan_id : value)
    (* DELETE FROM workout_plan WHERE plan_id = $1 RETURNING * *)
| InsertExercise (plan_id exercise_name sets repetitions notes : value)
    (* INSERT INTO exercise (plan_id, exercise_name, sets, repetitions, notes)
       VALUES ($1, $2, $3, $4, $5) RETURNING * *)
| SelectExercises (plan_id : value).
    (* SELECT * FROM exercise WHERE plan_id = $1 *)

#[global] Instance stmt_eq_dec : EqDecision stmt.
Proof. solve_decision. Defined.

(** Transaction control, as opposed to a statement on a table. *)
Definition is_control (q : stmt) : bool :=
  match q with
  | Begin | Commit | Rollback => true
  | _ => false
  end.

(** What a rejected [pool.query] carries. *)
Inductive sqlerr : Type :=
| UniqueViolation
| NotNullViolation
| ForeignKeyViolation
| InvalidTextRepresentation
| NumericValueOutOfRange
| InFailedTransaction
| ConnectionFailure.

(** A JS exception: the reason of a rejected promise. *)
Inductive exn : Type :=
| PgError (e : sqlerr)
| BcryptError (msg : string).

(** ** Handlers as programs of awaited effects

    Every constructor but [Ret] and [Throw] is one call of the source with
    the rest of the function as its continuation.  An awaited promise either
    rejects ([inl]) or resolves ([inr]). *)
Inductive prog (A : Type) : Type :=
| Ret (a : A)
| Throw (e : exn)
| PoolQuery (q : stmt) (k : exn + list object -> prog A)
| BcryptHash (data : value) (rounds : Z) (k : exn + string -> prog A)
| BcryptCompare (data hash : value) (k : exn + bool -> prog A)
| Send (status : Z) (b : body) (k : prog A)
| ConsoleError (e : exn) (k : prog A).

Arguments Ret {A} a.
Arguments Throw {A} e.
Arguments PoolQuery {A} q k.
Arguments BcryptHash {A} data rounds k.
Arguments BcryptCompare {A} data hash k.
Arguments Send {A} status b k.
Arguments ConsoleError {A} e k.

Fixpoint bind {A B : Type} (p : prog A) (f : A -> prog B) : prog B :=
  match p with
  | Ret a => f a
  | Throw e => Throw e
  | PoolQuery q k => PoolQuery q (fun r => bind (k r) f)
  | BcryptHash d n k => BcryptHash d n (fun r => bind (k r) f)
  | BcryptCompare d h k => BcryptCompare d h (fun r => bind (k r) f)
  | Send s b k => Send s b (bind k f)
  | ConsoleError e k => ConsoleError e (bind k f)
  end.

(** [try { p } catch (error) { h error }] *)
Fixpoint try_catch {A : Type} (p : prog A) (h : exn -> prog A) : prog A :=
  match p with
  | Ret a => Ret a
  | Throw e => h e
  | PoolQuery q k => PoolQuery q (fun r => try_catch (k r) h)
  | BcryptHash d n k => BcryptHash d n (fun r => try_catch (k r) h)
  | BcryptCompare d b k => BcryptCompare d b (fun r => try_catch (k r) h)
  | Send s b k => Send s b (try_catch k h)
  | ConsoleError e k => ConsoleError e (try_catch k h)
  end.

(** [await] of a promise: a rejection is thrown at the call site. *)
Definition settle {A R : Type} (k : R -> prog A) (r : exn + R) : prog A :=
  match r with
  | inl e => Throw e
  | inr x => k x
  end.

Definition pool_query (q : stmt) : prog (list object) :=
  PoolQuery q (settle Ret).
Definition bcrypt_hash (data : value) (rounds : Z) : prog string :=
  BcryptHash data rounds (settle Ret).
Definition bcrypt_compare (data hash : value) : prog bool :=
  BcryptCompare data hash (settle Ret).
Definition res_json (status : Z) (j : json) : prog unit :=
  Send status (Json j) (Ret tt).
Definition res_send (status : Z) (s : string) : prog unit :=
  Send status (Text s) (Ret tt).
Definition console_error (e : exn) : prog unit :=
  ConsoleError e (Ret tt).

Notation "x <- p ;; k" := (bind p (fun x => k))
  (at level 100, p at next level, right associativity).
Notation "p ;;; k" := (bind p (fun _ => k))
  (at level 100, right associativity).

Definition failure (message : string) : json :=
  JObj [("success", JVal (VBool false)); ("message", JVal (VString message))].

(** ** The handlers *)

(** [app.get('/')] *)
Definition root : prog unit :=
  res_send 200 "Lift Track API!".

(** [app.post('/api/users/register')] *)
Definition register (req_body : object) : prog unit :=
  let username := get "username" req_body in
  let password := get "password" req_body in
  hashedPassword <- bcrypt_hash password 10 ;;
  try_catch
    (result <- pool_query (InsertUser username (VString hashedPassword)) ;;
     let newUser := rows0 result in
     res_json 201 newUser)
    (fun error =>
       console_error error ;;;
       res_send 500 "Internal Server Error").

(** [app.post('/api/users/login')] *)
Definition login (req_body : object) : prog unit :=
  let username := get "username" req_body in
  let password := get "password" req_body in
  try_catch
    (result <- pool_query (SelectUser username) ;;
     match result with
     | user :: _ =>
         isPasswordMatch <- bcrypt_compare password (get "password" user) ;;
         if isPasswordMatch : bool then
           res_json 200
             (JObj [("user", JRow user); ("success", JVal (VBool true));
                    ("message", JVal (VString "Login successful"))])
         else
           res_json 401 (failure "Incorrect password")
     | [] =>
         res_json 404 (failure "User not found")
     end)
    (fun error =>
       console_error error ;;;
       res_json 500 (failure "Internal Server Error")).

(** [app.post('/api/workout-plans')] *)
Definition create_workout_plan (req_body : object) : prog unit :=
  let user_id := get "user_id" req_body in
  let plan_name := get "plan_name" req_body in
  let description := get "description" req_body in
  try_catch
    (result <- pool_query (InsertWorkoutPlan user_id plan_name description) ;;
     let newWorkoutPlan := rows0 result in
     res_json 201 newWorkoutPlan)
    (fun error =>
       console_error error ;;;
       res_json 500 (failure "Internal Server Error")).

(** [app.get('/api/workout-plans/:user_id')] *)
Definition list_workout_plans (user_id : string) : prog unit :=
  try_catch
    (result <- pool_query (SelectWorkoutPlans (VString user_id)) ;;
     let workoutPlans := result in
     res_json 200 (JRows workoutPlans))
    (fun error =>
       console_error error ;;;
       res_json 500 (failure "Internal Server Error")).

Definition deleted_message (planId : string) : string :=
  "Workout plan with ID " ++ planId ++
  " and associated exercises deleted successfully.".

(** [app.delete('/api/workout-plans/:planId')] *)
Definition delete_workout_plan (planId : string) : prog unit :=
  try_catch
    (pool_query Begin ;;;
     pool_query (DeleteExercises (VString planId)) ;;;
     deleteWorkoutPlanResult <- pool_query (DeleteWorkoutPlan (VString planId)) ;;
     pool_query Commit ;;;
     if (length deleteWorkoutPlanResult =? 0)%nat then
       res_json 404 (failure "Workout plan not found.")
     else
       res_json 200
         (JObj [("success", JVal (VBool true));
                ("message", JVal (VString (deleted_message planId)))]))
    (fun error =>
       pool_query Rollback ;;;
       console_error error ;;;
       res_json 500 (failure "Internal Server Error")).

(** [app.post('/api/exercises/:planId')] *)
Definition create_exercise (planId : string) (req_body : object) : prog unit :=
  let exercise_name := get "exercise_name" req_body in
  let sets := get "sets" req_body in
  let repetitions := get "repetitions" req_body in
  let notes := get "notes" req_body in
  try_catch
    (insertedExercise <-
       pool_query (InsertExercise (VString planId) exercise_name sets
                                  repetitions notes) ;;
     res_json 201
       (JObj [("success", JVal (VBool true));
              ("message",
               JVal (VString "Exercise added to workout plan successfully."));
              ("exercise", rows0 insertedExercise)]))
    (fun error =>
       console_error error ;;;
       res_json 500 (failure "Internal Server Error")).

(** [app.get('/api/exercises/:planId')] *)
Definition list_exercises (planId : string) : prog unit :=
  try_catch
    (exercisesResult <- pool_query (SelectExercises (VString planId)) ;;
     let exercises := exercisesResult in
     res_json 200 (JRows exercises))
    (fun error =>
       console_error error ;;;
       res_json 500 (failure "Internal Server Error")).

End Js.

(** ** Running a handler *)

Module Sem.
Import Js.

(** What a handler did, in the order it did it. *)
Inductive event : Type :=
| EvQuery (q : stmt) (r : exn + list object)
| EvHash (data : value) (rounds : Z) (r : exn + string)
| EvCompare (data hash : value) (r : exn + bool)
| EvSend (status : Z) (b : body)
| EvLog (e : exn).

(** How the [async] function ends: its promise resolves or rejects.  Nothing
    in [server.js] handles a rejected handler promise. *)
Inductive outcome (A : Type) : Type :=
| Returned (a : A)
| Rejected (e : exn).
Arguments Returned {A} a.
Arguments Rejected {A} e.

(** The collaborators of the handlers: the pool and the credential hasher.
    Each call answers and moves the environment to its next state. *)
Class Env (S : Type) : Type := {
  env_query : stmt -> S -> (exn + list object) * S;
  env_hash : value -> Z -> S -> (exn + string) * S;
  env_compare : value -> value -> S -> (exn + bool) * S;
}.

Record result (S A : Type) : Type := Result {
  trace : list event;
  ending : outcome A;
  final : S;
}.
Arguments Result {S A} trace ending final.
Arguments trace {S A} r.
Arguments ending {S A} r.
Arguments final {S A} r.

Definition after {S A : Type} (e : event) (r : result S A) : result S A :=
  Result (e :: trace r) (ending r) (final r).

Fixpoint run {S : Type} `{Env S} {A : Type} (p : prog A) (s : S) : result S A :=
  match p with
  | Ret a => Result [] (Returned a) s
  | Throw e => Result [] (Rejected e) s
  | PoolQuery q k =>
      let '(r, s') := env_query q s in after (EvQuery q r) (run (k r) s')
  | BcryptHash d n k =>
      let '(r, s') := env_hash d n s in after (EvHash d n r) (run (k r) s')
  | BcryptCompare d h k =>
      let '(r, s') := env_compare d h s in after (EvCompare d h r) (run (k r) s')
  | Send status b k => after (EvSend status b) (run k s)
  | ConsoleError e k => after (EvLog e) (run k s)
  end.

(** The responses sent, and the statements issued, in order. *)
Fixpoint responses (t : list event) : list (Z * body) :=
  match t with
  | [] => []
  | EvSend status b :: t' => (status, b) :: responses t'
  | _ :: t' => responses t'
  end.

Fixpoint statements (t : list event) : list stmt :=
  match t with
  | [] => []
  | EvQuery q _ :: t' => q :: statements t'
  | _ :: t' => statements t'
  end.

End Sem.

(** ** The relational store behind [pool] *)

Module Pg.
Import Js.

(** *** The tables

    The schema is not part of the repository: the rows and the constraints
    below follow the data model of the spec.  Generated ids and references
    are 32-bit integers, usernames and passwords are text.  The spec does
    not give the types of the other columns: each holds the value the store
    read from the bound parameter at the declared type of the column, and
    the declared types are a parameter of the store ([columns] below). *)
Module User.
(** Modelled from the spec: the table [users], missing from the repository.
    A User is [{id, username, password}], with a generated id, a unique and
    non-null username and a non-null password. *)
Record t : Type := Make { id : Z; username : string; password : string }.
Definition to_object (u : t) : object :=
  [("id", VNumber (id u)); ("username", VString (username u));
   ("password", VString (password u))].
End User.

Module Plan.
(** Modelled from the spec: the table [workout_plan], missing from the
    repository.  A WorkoutPlan is [{plan_id, user_id, plan_name,
    description}], with a generated id and a reference to its user. *)
Record t : Type := Make {
  plan_id : Z; user_id : option Z; plan_name : value; description : value }.
Definition nullable (o : option Z) : value :=
  match o with Some n => VNumber n | None => VNull end.
Definition to_object (p : t) : object :=
  [("plan_id", VNumber (plan_id p)); ("user_id", nullable (user_id p));
   ("plan_name", plan_name p); ("description", description p)].
(** The columns of [SELECT plan_id, plan_name, description]. *)
Definition summary (p : t) : object :=
  [("plan_id", VNumber (plan_id p)); ("plan_name", plan_name p);
   ("description", description p)].
End Plan.

Module Exercise.
(** Modelled from the spec: the table [exercise], missing from the
    repository.  An Exercise is [{exercise_id, plan_id, exercise_name, sets,
    repetitions, notes}], with a generated id and a reference to its plan. *)
Record t : Type := Make {
  exercise_id : Z; plan_id : Z; exercise_name : value;
  sets : value; repetitions : value; notes : value }.
Definition to_object (e : t) : object :=
  [("exercise_id", VNumber (exercise_id e)); ("plan_id", VNumber (plan_id e));
   ("exercise_name", exercise_name e); ("sets", sets e);
   ("repetitions", repetitions e); ("notes", notes e)].
End Exercise.

#[global] Instance user_eq_dec : EqDecision User.t.
Proof. solve_decision. Defined.
#[global] Instance plan_eq_dec : EqDecision Plan.t.
Proof. solve_decision. Defined.
#[global] Instance exercise_eq_dec : EqDecision Exercise.t.
Proof. solve_decision. Defined.

(** The three tables, each in insertion order. *)
Record db : Type := Db {
  users : list User.t;
  workout_plan : list Plan.t;
  exercise : list Exercise.t;
}.

(** *** Binding a parameter to a column

    The driver sends [undefined] and [null] as NULL and everything else as
    text: a string as it is, a number in decimal, a boolean as [true] or
    [false].  The store reads the text at the type of the column, and the
    column of a returned row comes back at that type, whatever the type of
    the value that was bound. *)

(** White space, as the store skips it around a number. *)
Definition is_space (c : ascii) : bool :=
  let n := nat_of_ascii c in
  ((n =? 32) || ((9 <=? n) && (n <=? 13)))%nat.

(** The value of [c] as a digit in [base], which is 2, 8, 10 or 16. *)
Definition digit (base : Z) (c : ascii) : option Z :=
  let n := Z.of_nat (nat_of_ascii c) in
  let d :=
    if ((48 <=? n) && (n <=? 57))%Z then Some (n - 48)
    else if ((97 <=? n) && (n <=? 102))%Z then Some (n - 87)
    else if ((65 <=? n) && (n <=? 70))%Z then Some (n - 55)
    else None in
  match d with
  | Some d => if (d <? base)%Z then Some d else None
  | None => None
  end.

(** The digits of an integer literal, read from the left: the value and
    what follows the literal.  [seen] says that a character of the literal
    has been read.  An underscore may separate two digits; a decimal literal
    may not start with one.  The store gives up as soon as the value cannot
    fit 32 bits any more. *)
Fixpoint magnitude (base : Z) (seen : bool) (s : string) (acc : Z)
  : sqlerr + Z * string :=
  match s with
  | EmptyString =>
      if seen then inr (acc, s) else inl InvalidTextRepresentation
  | String c s' =>
      match digit base c with
      | Some d =>
          if (2147483648 / base <? acc)%Z then inl NumericValueOutOfRange
          else magnitude base true s' (base * acc + d)
      | None =>
          if Ascii.eqb c "_" then
            if negb seen && (base =? 10)%Z then inl InvalidTextRepresentation
            else
              match s' with
              | EmptyString => inl InvalidTextRepresentation
              | String c' _ =>
                  match digit base c' with
                  | Some _ => magnitude base true s' acc
                  | None => inl InvalidTextRepresentation
                  end
              end
          else if seen then inr (acc, s)
          else inl InvalidTextRepresentation
      end
  end.

Fixpoint skip_spaces (s : string) : string :=
  match s with
  | EmptyString => s
  | String c s' => if is_space c then skip_spaces s' else s
  end.

Fixpoint blank (s : string) : bool :=
  match s with
  | EmptyString => true
  | String c s' => is_space c && blank s'
  end.

(** An optional sign, before the digits. *)
Definition signed (s : string) : bool * string :=
  match s with
  | String c s' =>
      if Ascii.eqb c "-" then (true, s')
      else if Ascii.eqb c "+" then (false, s')
      else (false, s)
  | EmptyString => (false, s)
  end.

(** The base of the literal: [0x], [0o] and [0b] announce hexadecimal, octal
    and binary digits. *)
Definition based (s : string) : Z * string :=
  match s with
  | String c (String c' s') =>
      if Ascii.eqb c "0" then
        if Ascii.eqb c' "x" || Ascii.eqb c' "X" then (16, s')
        else if Ascii.eqb c' "o" || Ascii.eqb c' "O" then (8, s')
        else if Ascii.eqb c' "b" || Ascii.eqb c' "B" then (2, s')
        else (10, s)
      else (10, s)
  | _ => (10, s)
  end.

(** A text read as a 32-bit integer, the way the store reads the text of a
    parameter bound to an integer column: white space, an optional sign, the
    digits, white space. *)
Definition int4in (s : string) : sqlerr + Z :=
  let '(negative, s1) := signed (skip_spaces s) in
  let '(base, s2) := based s1 in
  match magnitude base false s2 0 with
  | inl e => inl e
  | inr (n, rest) =>
      if blank rest then
        if negative then
          if (2147483648 <? n)%Z then inl NumericValueOutOfRange else inr (- n)
        else
          if (2147483647 <? n)%Z then inl NumericValueOutOfRange else inr n
      else inl InvalidTextRepresentation
  end.

(** The integer that a text stands for, if the store can read it as one. *)
Definition int_of_text (s : string) : option Z :=
  match int4in s with
  | inr n => Some n
  | inl _ => None
  end.

(** An integer column: [inr None] is NULL.  A number is sent in decimal, or
    with an exponent from [1e21] on, which is not the text of an integer. *)
Definition int_param (v : value) : sqlerr + option Z :=
  match v with
  | VUndefined | VNull => inr None
  | VNumber n =>
      if ((-2147483648 <=? n) && (n <=? 2147483647))%Z then inr (Some n)
      else if (Z.abs n <? 10 ^ 21)%Z then inl NumericValueOutOfRange
      else inl InvalidTextRepresentation
  | VString s =>
      match int4in s with
      | inr n => inr (Some n)
      | inl e => inl e
      end
  | VBool _ => inl InvalidTextRepresentation
  end.

Arguments int_param : simpl never.

(** A text column: [None] is NULL. *)
Definition text_param (v : value) : option string :=
  match v with
  | VUndefined | VNull => None
  | VBool b => Some (if b then "true" else "false")
  | VNumber n => Some (pretty n)
  | VString s => Some s
  end.

(** The declared type of a column. *)
Inductive coltype : Type :=
| IntegerColumn
| TextColumn.

(** What the store reads from a bound parameter at the type of its column,
    which is the value of the column in the rows it returns. *)
Definition read (t : coltype) (v : value) : sqlerr + value :=
  match t with
  | TextColumn =>
      inr (match text_param v with
           | Some s => VString s
           | None => VNull
           end)
  | IntegerColumn =>
      match int_param v with
      | inl e => inl e
      | inr (Some n) => inr (VNumber n)
      | inr None => inr VNull
      end
  end.

(** The values that a column of type [t] gives back as they were bound:
    NULL, a string for a text column, a 32-bit integer for an integer
    column. *)
Definition kept (t : coltype) (v : value) : Prop :=
  match v, t with
  | VNull, _ => True
  | VString _, TextColumn => True
  | VNumber n, IntegerColumn => (-2147483648 <= n <= 2147483647)%Z
  | _, _ => False
  end.

(** *** Writes *)

Inductive write : Type :=
| AddUser (u : User.t)
| AddPlan (p : Plan.t)
| AddExercise (e : Exercise.t)
| DelExercises (plan : Z)
| DelPlan (plan : Z).

Definition apply (w : write) (d : db) : db :=
  match w with
  | AddUser u => Db (users d ++ [u]) (workout_plan d) (exercise d)
  | AddPlan p => Db (users d) (workout_plan d ++ [p]) (exercise d)
  | AddExercise e => Db (users d) (workout_plan d) (exercise d ++ [e])
  | DelExercises n =>
      Db (users d) (workout_plan d)
         (filter (fun e => Exercise.plan_id e ≠ n) (exercise d))
  | DelPlan n =>
      Db (users d) (filter (fun p => Plan.plan_id p ≠ n) (workout_plan d))
         (exercise d)
  end.

Definition apply_all (ws : list write) (d : db) : db :=
  foldl (fun d w => apply w d) d ws.

(** The sequences behind the generated ids; they are not transactional. *)
Record seqs : Type := Seqs {
  next_user : Z; next_plan : Z; next_exercise : Z }.

(** The rows a [WHERE column = $1] keeps, in table order. *)
Definition users_named (name : string) (d : db) : list User.t :=
  filter (fun u => User.username u = name) (users d).
Definition plans_of (owner : Z) (d : db) : list Plan.t :=
  filter (fun p => Plan.user_id p = Some owner) (workout_plan d).
Definition plans_with (n : Z) (d : db) : list Plan.t :=
  filter (fun p => Plan.plan_id p = n) (workout_plan d).
Definition exercises_of (n : Z) (d : db) : list Exercise.t :=
  filter (fun e => Exercise.plan_id e = n) (exercise d).

(** [WHERE username = $1]: NULL equals nothing. *)
Definition lookup_user (username : value) (d : db) : list User.t :=
  match text_param username with
  | Some name => users_named name d
  | None => []
  end.

(** The reference of a plan to its user: NULL refers to nobody. *)
Definition known_user (owner : option Z) (d : db) : bool :=
  match owner with
  | Some n => bool_decide (Exists (fun u => User.id u = n) (users d))
  | None => true
  end.

(** Every exercise belongs to a plan of the table. *)
Definition referential (d : db) : Prop :=
  Forall (fun e => plans_with (Exercise.plan_id e) d ≠ []) (exercise d).

(** The sequences after one value was drawn for a new row. *)
Definition draw_user (g : seqs) : seqs :=
  Seqs (next_user g + 1) (next_plan g) (next_exercise g).
Definition draw_plan (g : seqs) : seqs :=
  Seqs (next_user g) (next_plan g + 1) (next_exercise g).
Definition draw_exercise (g : seqs) : seqs :=
  Seqs (next_user g) (next_plan g) (next_exercise g + 1).

(** *** One statement on the rows a session sees

    The rows returned and the write to perform if any, or the error the
    store raises; and the sequences afterwards.  [columns] gives the declared
    type of each column whose type the spec leaves open, by its name.  The
    constraints are those of the spec's data model, the schema being absent:
    a username is unique and not null, a password is not null, a plan refers
    to a user that exists or to none, and an exercise refers to a plan that
    exists when the exercise is created.

    The parameters are read first and in order, and an unreadable one
    rejects the statement before it runs.  An [INSERT] that runs draws the id
    of its row from the sequence before the constraints are checked, so an
    insertion that a constraint rejects has used an id all the same.  The
    deletion of a plan is not checked against the exercises that refer to
    it: the handler deletes them first, and what the reference does when a
    plan is deleted is not in the spec.  No statement waits for a lock that
    another session holds: every call settles. *)
Definition on_tables (columns : string -> coltype) (q : stmt) (d : db) (g : seqs)
  : (sqlerr + list object * option write) * seqs :=
  match q with
  | Begin | Commit | Rollback => (inr ([], None), g)
  | InsertUser username password =>
      match text_param username, text_param password with
      | Some name, Some pw =>
          if decide (users_named name d = []) then
            let u := User.Make (next_user g) name pw in
            (inr ([User.to_object u], Some (AddUser u)), draw_user g)
          else (inl UniqueViolation, draw_user g)
      | _, _ => (inl NotNullViolation, draw_user g)
      end
  | SelectUser username =>
      (inr (User.to_object <$> lookup_user username d, None), g)
  | InsertWorkoutPlan user_id plan_name description =>
      match int_param user_id,
            read (columns "plan_name") plan_name,
            read (columns "description") description with
      | inl e, _, _ | inr _, inl e, _ | inr _, inr _, inl e => (inl e, g)
      | inr owner, inr name, inr text =>
          if known_user owner d then
            let p := Plan.Make (next_plan g) owner name text in
            (inr ([Plan.to_object p], Some (AddPlan p)), draw_plan g)
          else (inl ForeignKeyViolation, draw_plan g)
      end
  | SelectWorkoutPlans user_id =>
      match int_param user_id with
      | inl e => (inl e, g)
      | inr (Some n) => (inr (Plan.summary <$> plans_of n d, None), g)
      | inr None => (inr ([], None), g)
      end
  | DeleteExercises plan_id =>
      match int_param plan_id with
      | inl e => (inl e, g)
      | inr (Some n) => (inr ([], Some (DelExercises n)), g)
      | inr None => (inr ([], None), g)
      end
  | DeleteWorkoutPlan plan_id =>
      match int_param plan_id with
      | inl e => (inl e, g)
      | inr (Some n) =>
          (inr (Plan.to_object <$> plans_with n d, Some (DelPlan n)), g)
      | inr None => (inr ([], None), g)
      end
  | InsertExercise plan_id exercise_name sets repetitions notes =>
      match int_param plan_id,
            read (columns "exercise_name") exercise_name,
            read (columns "sets") sets,
            read (columns "repetitions") repetitions,
            read (columns "notes") notes with
      | inl e, _, _, _, _ | inr _, inl e, _, _, _ | inr _, inr _, inl e, _, _
      | inr _, inr _, inr _, inl e, _ | inr _, inr _, inr _, inr _, inl e =>
          (inl e, g)
      | inr None, inr _, inr _, inr _, inr _ =>
          (inl NotNullViolation, draw_exercise g)
      | inr (Some n), inr name, inr count, inr times, inr text =>
          if decide (plans_with n d = []) then
            (inl ForeignKeyViolation, draw_exercise g)
          else
            let e := Exercise.Make (next_exercise g) n name count times text in
            (inr ([Exercise.to_object e], Some (AddExercise e)),
             draw_exercise g)
      end
  | SelectExercises plan_id =>
      match int_param plan_id with
      | inl e => (inl e, g)
      | inr (Some n) => (inr (Exercise.to_object <$> exercises_of n d, None), g)
      | inr None => (inr ([], None), g)
      end
  end.

(** *** Sessions and transactions

    Each client of the pool is a session of the store.  [BEGIN] opens a
    transaction on the session that runs it; until [COMMIT] the writes of
    that session are its own.  A session with no open transaction commits
    every statement at once. *)
Inductive session : Type :=
| InTransaction (ws : list write)  (* the writes so far, oldest first *)
| Aborted.                         (* a statement failed in the transaction *)

Record store : Type := Store {
  committed : db;
  sessions : gmap nat session;     (* the sessions with a transaction open *)
  generators : seqs;
  columns : string -> coltype;     (* the declared types, by column name *)
}.

(** The rows that the session of client [c] sees. *)
Definition view (st : store) (c : nat) : db :=
  match sessions st !! c with
  | Some (InTransaction ws) => apply_all ws (committed st)
  | _ => committed st
  end.

(** A statement fails on client [c]: an open transaction is lost. *)
Definition abort (c : nat) (st : store) : store :=
  match sessions st !! c with
  | Some _ =>
      Store (committed st) (<[c:=Aborted]> (sessions st)) (generators st)
            (columns st)
  | None => st
  end.

Definition perform (c : nat) (w : option write) (g : seqs) (st : store) : store :=
  match w, sessions st !! c with
  | None, _ => Store (committed st) (sessions st) g (columns st)
  | Some w, Some (InTransaction ws) =>
      Store (committed st) (<[c:=InTransaction (ws ++ [w])]> (sessions st)) g
            (columns st)
  | Some w, _ => Store (apply w (committed st)) (sessions st) g (columns st)
  end.

(** One statement on the session of client [c]. *)
Definition exec_on (c : nat) (q : stmt) (st : store) : (sqlerr + list object) * store :=
  match sessions st !! c, q with
  | None, Begin =>
      (inr [], Store (committed st) (<[c:=InTransaction []]> (sessions st))
                     (generators st) (columns st))
  | Some (InTransaction _), Begin => (inr [], st)
  | Some (InTransaction ws), Commit =>
      (inr [], Store (apply_all ws (committed st)) (delete c (sessions st))
                     (generators st) (columns st))
  | Some _, (Commit | Rollback) =>
      (inr [], Store (committed st) (delete c (sessions st)) (generators st)
                     (columns st))
  | None, (Commit | Rollback) => (inr [], st)
  | Some Aborted, _ => (inl InFailedTransaction, st)
  | _, _ =>
      match on_tables (columns st) q (view st c) (generators st) with
      | (inl e, g) => (inl e, abort c (perform c None g st))
      | (inr (rows, w), g) => (inr rows, perform c w g st)
      end
  end.

(** *** The order of the rows

    The two listings of [server.js] have no [ORDER BY]: the store returns
    the rows that match in an order of its own, which need not be that of
    the insertions.  The order is the environment's choice, given as the
    positions to pick the rows at, one after the other, among those that
    are left; the rows that are left when the picks run out follow in table
    order.  The other statements return one row at most, their [WHERE] being
    on a unique column or their row the inserted one. *)
Fixpoint arrange {A : Type} (picks : list nat) (l : list A) : list A :=
  match picks with
  | [] => l
  | i :: picks' =>
      match l !! i with
      | Some x => x :: arrange picks' (delete i l)
      | None => l
      end
  end.

Definition is_listing (q : stmt) : bool :=
  match q with
  | SelectWorkoutPlans _ | SelectExercises _ => true
  | _ => false
  end.

Definition scan (q : stmt) (picks : list nat) (rows : list object) : list object :=
  if is_listing q then arrange picks rows else rows.

(** *** The pool

    [pool.query(text, values)] takes a client out of the pool, runs the one
    statement on it and gives the client back: connections are checked out
    per query in flight and returned on completion, in the words of the
    spec.  [server.js] never holds a client of its own ([pool.connect] does
    not occur in it).  Which client serves a call, and whether the call
    fails for a reason outside the tables (the connection, a timeout), is
    the environment's choice: the [schedule] lists it call by call, and a
    call past its end runs on client 0 and is not failed.  In the same way
    [orders] lists, call by call, the order in which the rows come back, and
    a call past its end gets them in table order.  The [journal] keeps which
    client ran which statement. *)
Record machine : Type := Machine {
  state : store;
  schedule : list (nat * option sqlerr);
  salts : list string;
  journal : list (nat * stmt);
  orders : list (list nat);
}.

Definition next_call (m : machine) : nat * option sqlerr :=
  match schedule m with
  | [] => (0%nat, None)
  | call :: _ => call
  end.

Definition next_order (m : machine) : list nat :=
  match orders m with
  | [] => []
  | picks :: _ => picks
  end.

Definition pool_exec (q : stmt) (m : machine) : (exn + list object) * machine :=
  let '(c, fault) := next_call m in
  let '(r, st) :=
    match fault with
    | Some e => (inl e, abort c (state m))
    | None => exec_on c q (state m)
    end in
  (match r with
   | inl e => inl (PgError e)
   | inr rows => inr (scan q (next_order m) rows)
   end,
   Machine st (tail (schedule m)) (salts m) (journal m ++ [(c, q)])
           (tail (orders m))).

(** *** The credential hasher

    [bcrypt.hash(data, rounds)] draws a salt and digests; [bcrypt.compare]
    verifies.  Both reject when [data] is missing or is not a string. *)
Record hasher : Type := Hasher {
  digest : Z -> string -> string -> string;   (* rounds, salt, data *)
  verify : string -> string -> bool;          (* data, hash *)
}.

(** The part of the hasher's contract that the spec relies on: a hash is
    never the secret it was made from. *)
Definition one_way (h : hasher) : Prop :=
  forall (rounds : Z) (salt data : string), digest h rounds salt data <> data.

Definition hash_call (h : hasher) (salt : string) (data : value) (rounds : Z)
  : exn + string :=
  match data with
  | VString s => inr (digest h rounds salt s)
  | VUndefined | VNull => inl (BcryptError "data and salt arguments required")
  | _ => inl (BcryptError "data must be a string or Buffer and salt must either be a salt string or a number of rounds")
  end.

Definition compare_call (h : hasher) (data hash : value) : exn + bool :=
  match data, hash with
  | VString d, VString s => inr (verify h d s)
  | (VUndefined | VNull), _ | _, (VUndefined | VNull) =>
      inl (BcryptError "data and hash arguments required")
  | _, _ => inl (BcryptError "data and hash must be strings")
  end.

Definition next_salt (m : machine) : string :=
  match salts m with
  | [] => ""
  | salt :: _ => salt
  end.

Definition hash_exec (h : hasher) (data : value) (rounds : Z) (m : machine)
  : (exn + string) * machine :=
  match hash_call h (next_salt m) data rounds with
  | inl e => (inl e, m)
  | inr hashed =>
      (inr hashed,
       Machine (state m) (schedule m) (tail (salts m)) (journal m) (orders m))
  end.

#[global] Instance pg_env (h : hasher) : Sem.Env machine := {
  Sem.env_query := pool_exec;
  Sem.env_hash := hash_exec h;
  Sem.env_compare := fun data hash m => (compare_call h data hash, m);
}.

(** A handler served by the pool and the hasher. *)
Definition serve (h : hasher) {A : Type} (p : prog A) (m : machine)
  : Sem.result machine A :=
  Sem.run (H := pg_env h) p m.

(** No session has a transaction open. *)
Definition quiescent (st : store) : Prop := sessions st = ∅.

(** Every open transaction holds nothing but deletions for plan [n]. *)
Definition deleting (n : Z) (w : write) : Prop :=
  w = DelExercises n \/ w = DelPlan n.
Definition only_deleting (n : Z) (st : store) : Prop :=
  forall (c : nat) (s : session),
    sessions st !! c = Some s ->
    exists ws, s = InTransaction ws /\ Forall (deleting n) ws.

(** The statements of the Plan Deletion Handler before its response. *)
Definition deletion_statements (planId : string) : list stmt :=
  [Begin; DeleteExercises (VString planId); DeleteWorkoutPlan (VString planId);
   Commit].

End Pg.

(** ** A small instance to run the handlers on *)

Module Sample.
Import Js Pg.

(** A stand-in for the credential hasher, with the shape of its output: a
    version and cost prefix, then the salt, then the digest.  It only serves
    to run the handlers on concrete requests. *)
Definition hasher : Pg.hasher :=
  Hasher
    (fun rounds salt data => "$2b$" ++ pretty rounds ++ "$" ++ salt ++ data)
    (fun data hash =>
       String.eqb
         (substring (String.length hash - String.length data)
                    (String.length data) hash)
         data).

Definition alice : User.t := User.Make 1 "alice" "$2b$10$NaClsecret".
Definition push_day : Plan.t :=
  Plan.Make 1 (Some 1) (VString "Push day") (VString "Chest and triceps").
Definition pull_day : Plan.t :=
  Plan.Make 2 (Some 1) (VString "Pull day") VNull.
Definition bench : Exercise.t :=
  Exercise.Make 1 1 (VString "Bench press") (VNumber 3) (VNumber 10) VNull.
Definition dips : Exercise.t :=
  Exercise.Make 2 1 (VString "Dips") (VNumber 3) (VNumber 12)
                (VString "to failure").

Definition tables : db := Db [alice] [push_day; pull_day] [bench; dips].

Definition bob_registers : object :=
  [("username", VString "bob"); ("password", VString "hunter2")].
Definition alice_logs_in : object :=
  [("username", VString "alice"); ("password", VString "secret")].
Definition alice_mistypes : object :=
  [("username", VString "alice"); ("password", VString "Secret")].
Definition squats : object :=
  [("exercise_name", VString "Squat"); ("sets", VNumber 5);
   ("repetitions", VNumber 5); ("notes", VString "below parallel")].

Definition carol_registers : object := [("username", VString "carol")].

(** The declared types of the sample: the counts are integers, the names,
    the description and the notes are text. *)
Definition typing (column : string) : coltype :=
  if String.eqb column "sets" || String.eqb column "repetitions"
  then IntegerColumn else TextColumn.

(** A store with no transaction open, served as [calls] says; the rows of a
    listing come back in table order. *)
Definition machine (calls : list (nat * option sqlerr)) : Pg.machine :=
  Machine (Store tables ∅ (Seqs 2 3 3) typing) calls ["NaCl"] [] [].

(** Every call on client 0, none failing. *)
Definition one_client : list (nat * option sqlerr) :=
  [(0%nat, None); (0%nat, None); (0%nat, None); (0%nat, None)].

(** The exercise deletion lands on a second client. *)
Definition across_clients : list (nat * option sqlerr) :=
  [(0%nat, None); (1%nat, None); (0%nat, None); (0%nat, None)].

(** [BEGIN] and the deletion of the plan on client 0, the deletion of the
    exercises and [COMMIT] on client 1. *)
Definition crosswise : list (nat * option sqlerr) :=
  [(0%nat, None); (1%nat, None); (0%nat, None); (1%nat, None)].

(** [BEGIN] on client 0, both deletions on client 1, the second of them
    failing, and the [ROLLBACK] of the handler on client 0 again. *)
Definition two_clients_fault : list (nat * option sqlerr) :=
  [(0%nat, None); (1%nat, None); (1%nat, Some ConnectionFailure);
   (0%nat, None)].

(** The connection is lost when the plan is deleted and stays lost. *)
Definition connection_lost : list (nat * option sqlerr) :=
  [(0%nat, None); (0%nat, None); (0%nat, Some ConnectionFailure);
   (0%nat, Some ConnectionFailure)].

(** An exercise is added to the first plan, which has two already, and the
    exercises of the plan are listed. *)
Definition squat_row : object :=
  [("exercise_id", VNumber 3); ("plan_id", VNumber 1);
   ("exercise_name", VString "Squat"); ("sets", VNumber 5);
   ("repetitions", VNumber 5); ("notes", VString "below parallel")].
Definition squat_added : Sem.result Pg.machine unit :=
  serve hasher (create_exercise "1" squats) (machine one_client).
Definition squat_listed : Sem.result Pg.machine unit :=
  serve hasher (list_exercises "1") (Sem.final squat_added).

(** The same on the second plan, which has no exercise yet. *)
Definition pull_squat_added : Sem.result Pg.machine unit :=
  serve hasher (create_exercise "2" squats) (machine one_client).
Definition pull_squat_listed : Sem.result Pg.machine unit :=
  serve hasher (list_exercises "2") (Sem.final pull_squat_added).

(** Deleting the first plan under each of the schedules above, and deleting
    a plan that is not there. *)
Definition deleted_on_one_client : Sem.result Pg.machine unit :=
  serve hasher (delete_workout_plan "1") (machine one_client).
Definition deleted_across_clients : Sem.result Pg.machine unit :=
  serve hasher (delete_workout_plan "1") (machine across_clients).
Definition deleted_crosswise : Sem.result Pg.machine unit :=
  serve hasher (delete_workout_plan "1") (machine crosswise).
Definition deleted_with_fault : Sem.result Pg.machine unit :=
  serve hasher (delete_workout_plan "1") (machine two_clients_fault).
Definition deleted_connection_lost : Sem.result Pg.machine unit :=
  serve hasher (delete_workout_plan "1") (machine connection_lost).
Definition deleted_missing : Sem.result Pg.machine unit :=
  serve hasher (delete_workout_plan "7") (machine across_clients).

End Sample.


(** ** The routes, grouped by what they do *)

Module Routes.
Import Js Pg.

(** The routes whose every path ends in a response: the body of each but
    [root] is one [try] with a [catch] that responds. *)
Definition answering (req_body : object) (id : string) : list (prog unit) :=
  [root; login req_body; create_workout_plan req_body; list_workout_plans id;
   create_exercise id req_body; list_exercises id].

(** The routes that issue one statement inside their [try], each with the
    statement it issues. *)
Definition guarded (req_body : object) (id : string) : list (prog unit * stmt) :=
  [(login req_body, SelectUser (get "username" req_body));
   (create_workout_plan req_body,
    InsertWorkoutPlan (get "user_id" req_body) (get "plan_name" req_body)
                      (get "description" req_body));
   (list_workout_plans id, SelectWorkoutPlans (VString id));
   (create_exercise id req_body,
    InsertExercise (VString id) (get "exercise_name" req_body)
                   (get "sets" req_body) (get "repetitions" req_body)
                   (get "notes" req_body));
   (list_exercises id, SelectExercises (VString id))].

(** The routes that only read. *)
Definition reading (req_body : object) (id : string) : list (prog unit) :=
  [root; login req_body; list_workout_plans id; list_exercises id].

Definition is_select (q : stmt) : bool :=
  match q with
  | SelectUser _ | SelectWorkoutPlans _ | SelectExercises _ => true
  | _ => false
  end.

(** Every statement that a program can issue, on any of its paths, is one
    of [Q]. *)
Inductive issues_only {A : Type} (Q : stmt -> Prop) : prog A -> Prop :=
| only_ret (a : A) : issues_only Q (Ret a)
| only_throw (e : exn) : issues_only Q (Throw e)
| only_query (q : stmt) (k : exn + list object -> prog A) :
    Q q -> (forall r, issues_only Q (k r)) -> issues_only Q (PoolQuery q k)
| only_hash (d : value) (n : Z) (k : exn + string -> prog A) :
    (forall r, issues_only Q (k r)) -> issues_only Q (BcryptHash d n k)
| only_compare (d h : value) (k : exn + bool -> prog A) :
    (forall r, issues_only Q (k r)) -> issues_only Q (BcryptCompare d h k)
| only_send (status : Z) (b : body) (k : prog A) :
    issues_only Q k -> issues_only Q (Send status b k)
| only_log (e : exn) (k : prog A) :
    issues_only Q k -> issues_only Q (ConsoleError e k).

(** What the deletion of plan [n] may leave in a session: a failed
    transaction, or a transaction that holds deletions for plan [n] only. *)
Definition holds_only (n : Z) (s : session) : Prop :=
  match s with
  | InTransaction ws => Forall (deleting n) ws
  | Aborted => True
  end.
Definition pending_only (n : Z) (st : store) : Prop :=
  forall (c : nat) (s : session), sessions st !! c = Some s -> holds_only n s.

(** The tables [d] are the tables [d0] but for plan [n] and its exercises. *)
Definition but_for (n : Z) (d0 d : db) : Prop :=
  users d = users d0 /\
  forall n' : Z, n' <> n ->
    plans_with n' d = plans_with n' d0 /\
    exercises_of n' d = exercises_of n' d0.

(** What the deletion of [planId] can issue. *)
Definition of_deletion (planId : string) (q : stmt) : Prop :=
  q ∈ deletion_statements planId \/ q = Rollback.

End Routes.

(** ** More requests and schedules for the sample *)

Module Runs.
Import Js Pg.

Definition alice_without_password : object := [("username", VString "alice")].
Definition leg_day : object :=
  [("user_id", VNumber 1); ("plan_name", VString "Leg day");
   ("description", VString "Squats and lunges")].

(** The one call fails on the connection. *)
Definition unreachable : list (nat * option sqlerr) :=
  [(0%nat, Some ConnectionFailure)].

(** Two calls, on two clients. *)
Definition two_calls : list (nat * option sqlerr) :=
  [(0%nat, None); (1%nat, None)].

(** Client 0 serves every call and the deletion of the plan fails. *)
Definition one_client_fault : list (nat * option sqlerr) :=
  [(0%nat, None); (0%nat, None); (0%nat, Some ConnectionFailure);
   (0%nat, None); (0%nat, None)].

(** Client 0 serves four calls, client 1 the fifth. *)
Definition then_another : list (nat * option sqlerr) :=
  [(0%nat, None); (0%nat, None); (0%nat, None); (0%nat, None); (1%nat, None)].

(** Client 0 serves four calls; the next four alternate between two clients. *)
Definition then_four_more : list (nat * option sqlerr) :=
  [(0%nat, None); (0%nat, None); (0%nat, None); (0%nat, None);
   (0%nat, None); (1%nat, None); (0%nat, None); (1%nat, None)].

(** The store that the crosswise deletion of the sample leaves, with its
    transaction open on client 0; the next call is served by client 0. *)
Definition leaked : machine :=
  Machine (state (Sem.final Sample.deleted_crosswise)) [(0%nat, None)] [] [] [].

(** The same store, with client 0 serving the four calls that come next. *)
Definition left_open : machine :=
  Machine (state (Sem.final Sample.deleted_crosswise)) Sample.one_client [] []
          [].

(** The same store, with client 0 serving the next call and client 1 the
    one after. *)
Definition left_open_two : machine :=
  Machine (state (Sem.final Sample.deleted_crosswise)) two_calls [] [] [].

(** An exercise whose notes are given as a number. *)
Definition lunges : object :=
  [("exercise_name", VString "Lunge"); ("sets", VNumber 4);
   ("repetitions", VNumber 12); ("notes", VNumber 20)].

(** The sample store when the rows of the next listing come back second row
    first. *)
Definition second_first : machine :=
  Machine (state (Sample.machine [])) [] [] [] [[1%nat]].

End Runs.
(** * Properties of the handlers *)

Import Js Sem Pg.

(** ** Running against any environment *)

Section AnyEnvironment.
Context {S : Type} `{Env S}.

(** The run of the deletion when its four statements resolve. *)
Lemma run_deletion_resolved (planId : string) (s0 s1 s2 s3 s4 : S)
    (r1 r2 deleted r4 : list object) :
  env_query Begin s0 = (inr r1, s1) ->
  env_query (DeleteExercises (VString planId)) s1 = (inr r2, s2) ->
  env_query (DeleteWorkoutPlan (VString planId)) s2 = (inr deleted, s3) ->
  env_query Commit s3 = (inr r4, s4) ->
  run (delete_workout_plan planId) s0 =
    Result
      [EvQuery Begin (inr r1);
       EvQuery (DeleteExercises (VString planId)) (inr r2);
       EvQuery (DeleteWorkoutPlan (VString planId)) (inr deleted);
       EvQuery Commit (inr r4);
       match deleted with
       | [] => EvSend 404 (Json (failure "Workout plan not found."))
       | _ :: _ =>
           EvSend 200
             (Json (JObj [("success", JVal (VBool true));
                          ("message", JVal (VString (deleted_message planId)))]))
       end]
      (Returned tt) s4.
Proof.
  intros E1 E2 E3 E4. unfold delete_workout_plan. cbn.
  rewrite E1. cbn. rewrite E2. cbn. rewrite E3. cbn. rewrite E4.
  destruct deleted; reflexivity.
Qed.

(** C1.  The Plan Deletion Handler follows its protocol: when the four
    statements resolve, it has issued [BEGIN], the deletion of the exercises
    of [planId], the deletion of the plan [planId] that returns the deleted
    rows, and [COMMIT], in this order and nothing else; only then it
    responds, with 404 and [{success: false, message: "Workout plan not
    found."}] when the plan deletion returned no row and with 200 and a
    confirmation message otherwise; and the handler returns. *)
Theorem delete_workout_plan_protocol (planId : string) (s0 s1 s2 s3 s4 : S)
    (r1 r2 deleted r4 : list object) :
  env_query Begin s0 = (inr r1, s1) ->
  env_query (DeleteExercises (VString planId)) s1 = (inr r2, s2) ->
  env_query (DeleteWorkoutPlan (VString planId)) s2 = (inr deleted, s3) ->
  env_query Commit s3 = (inr r4, s4) ->
  run (delete_workout_plan planId) s0 =
    Result
      [EvQuery Begin (inr r1);
       EvQuery (DeleteExercises (VString planId)) (inr r2);
       EvQuery (DeleteWorkoutPlan (VString planId)) (inr deleted);
       EvQuery Commit (inr r4);
       match deleted with
       | [] => EvSend 404 (Json (failure "Workout plan not found."))
       | _ :: _ =>
           EvSend 200
             (Json (JObj [("success", JVal (VBool true));
                          ("message", JVal (VString (deleted_message planId)))]))
       end]
      (Returned tt) s4.
Proof. apply run_deletion_resolved. Qed.

(** C10.  When the hashing step of a registration fails, the Registration
    Handler has sent no response and issued no statement: the hash is awaited
    before the [try], so the handler's promise rejects with the hasher's
    error and the run consists of the failed hashing call alone. *)
Theorem register_hash_failure_no_response (req_body : object) (s0 s1 : S)
    (e : exn) :
  env_hash (get "password" req_body) 10 s0 = (inl e, s1) ->
  run (register req_body) s0 =
    Result [EvHash (get "password" req_body) 10 (inl e)] (Rejected e) s1
  /\ responses (trace (run (register req_body) s0)) = [].
Proof.
  intros E. unfold register. cbn. rewrite E. cbn. split; reflexivity.
Qed.

(** Whatever the environment answers, the deletion issues its statements in
    one of five orders; the deletion of the exercises always comes before
    the deletion of the plan. *)
Lemma deletion_statement_order (planId : string) (s : S) :
  let ex := DeleteExercises (VString planId) in
  let plan := DeleteWorkoutPlan (VString planId) in
  statements (trace (run (delete_workout_plan planId) s)) ∈
    [[Begin; Rollback]; [Begin; ex; Rollback]; [Begin; ex; plan; Rollback];
     [Begin; ex; plan; Commit; Rollback]; [Begin; ex; plan; Commit]].
Proof.
  unfold delete_workout_plan. cbn.
  destruct (env_query Begin s) as [[e1|r1] s1]; cbn;
    [destruct (env_query Rollback s1) as [[?|?] ?]; cbn; by repeat constructor|].
  destruct (env_query _ s1) as [[e2|r2] s2]; cbn;
    [destruct (env_query Rollback s2) as [[?|?] ?]; cbn; by repeat constructor|].
  destruct (env_query _ s2) as [[e3|r3] s3]; cbn;
    [destruct (env_query Rollback s3) as [[?|?] ?]; cbn; by repeat constructor|].
  destruct (env_query _ s3) as [[e4|r4] s4]; cbn;
    [destruct (env_query Rollback s4) as [[?|?] ?]; cbn; by repeat constructor|].
  destruct r3; cbn; by repeat constructor.
Qed.

(** When one of the four statements is rejected, the handler issues
    [ROLLBACK]; it responds 500 when the [ROLLBACK] resolves, and sends
    nothing when the [ROLLBACK] is rejected too. *)
Lemma deletion_failure_path (planId : string) (s : S) :
  let r := run (delete_workout_plan planId) s in
  (exists q e, q <> Rollback /\ EvQuery q (inl e) ∈ trace r) ->
  Rollback ∈ statements (trace r) /\
  (responses (trace r) = [(500, Json (failure "Internal Server Error"))] \/
   (responses (trace r) = [] /\ exists e, ending r = Rejected e)).
Proof.
  unfold delete_workout_plan. cbn.
  destruct (env_query Begin s) as [[e1|r1] s1]; cbn.
  { intros _. destruct (env_query Rollback s1) as [[?|?] ?]; cbn;
      (split; [by repeat constructor|]); eauto. }
  destruct (env_query _ s1) as [[e2|r2] s2]; cbn.
  { intros _. destruct (env_query Rollback s2) as [[?|?] ?]; cbn;
      (split; [by repeat constructor|]); eauto. }
  destruct (env_query _ s2) as [[e3|r3] s3]; cbn.
  { intros _. destruct (env_query Rollback s3) as [[?|?] ?]; cbn;
      (split; [by repeat constructor|]); eauto. }
  destruct (env_query _ s3) as [[e4|r4] s4]; cbn.
  { intros _. destruct (env_query Rollback s4) as [[?|?] ?]; cbn;
      (split; [by repeat constructor|]); eauto. }
  intros (q & e & _ & Hin). exfalso.
  destruct r3; cbn in Hin;
    repeat (apply elem_of_cons in Hin as [Hin|Hin]; [discriminate|]);
    by apply elem_of_nil in Hin.
Qed.

(** Every other handler issues one statement at most. *)
Lemma one_statement_handlers (req_body : object) (id : string) (s : S) :
  Forall (fun p => (length (statements (trace (run p s))) <= 1)%nat)
    [root; register req_body; login req_body; create_workout_plan req_body;
     list_workout_plans id; create_exercise id req_body; list_exercises id].
Proof.
  repeat first [apply Forall_nil_2 | apply Forall_cons_2].
  - cbn. lia.
  - unfold register. cbn.
    destruct (env_hash _ _ s) as [[?|?] s1]; cbn; [lia|].
    destruct (env_query _ s1) as [[?|?] ?]; cbn; lia.
  - unfold login. cbn.
    destruct (env_query _ s) as [[?|[|u us]] s1]; cbn; try lia.
    destruct (env_compare _ _ s1) as [[?|[|]] ?]; cbn; lia.
  - unfold create_workout_plan. cbn.
    destruct (env_query _ s) as [[?|?] ?]; cbn; lia.
  - unfold list_workout_plans. cbn.
    destruct (env_query _ s) as [[?|?] ?]; cbn; lia.
  - unfold create_exercise. cbn.
    destruct (env_query _ s) as [[?|?] ?]; cbn; lia.
  - unfold list_exercises. cbn.
    destruct (env_query _ s) as [[?|?] ?]; cbn; lia.
Qed.

End AnyEnvironment.

(** The protocol on the sample store: plan 1 is there and the response is
    200. *)
Lemma delete_workout_plan_protocol_witness :
  exists s1 s2 s3 s4 r1 r2 deleted r4,
    pool_exec Begin (Sample.machine Sample.one_client) = (inr r1, s1) /\
    pool_exec (DeleteExercises (VString "1")) s1 = (inr r2, s2) /\
    pool_exec (DeleteWorkoutPlan (VString "1")) s2 = (inr deleted, s3) /\
    pool_exec Commit s3 = (inr r4, s4) /\
    responses (trace Sample.deleted_on_one_client) =
      [(200, Json (JObj [("success", JVal (VBool true));
                         ("message", JVal (VString (deleted_message "1")))]))].
Proof.
  do 8 eexists.
  split; [reflexivity|]. split; [reflexivity|]. split; [reflexivity|].
  split; [reflexivity|].
  unfold Sample.deleted_on_one_client, serve.
  rewrite (delete_workout_plan_protocol (H := pg_env Sample.hasher) "1"
             (Sample.machine Sample.one_client) _ _ _ _ _ _ _ _
             eq_refl eq_refl eq_refl eq_refl).
  reflexivity.
Defined.

(** A registration without a password: the hasher rejects it and nothing is
    sent. *)
Lemma register_hash_failure_no_response_witness :
  hash_exec Sample.hasher (get "password" Sample.carol_registers) 10
            (Sample.machine []) =
    (inl (BcryptError "data and salt arguments required"), Sample.machine [])
  /\ responses (trace (serve Sample.hasher (register Sample.carol_registers)
                             (Sample.machine []))) = [].
Proof.
  split; [reflexivity|].
  apply (register_hash_failure_no_response (H := pg_env Sample.hasher)
           Sample.carol_registers (Sample.machine []) (Sample.machine [])
           (BcryptError "data and salt arguments required") eq_refl).
Defined.

(** ** Running against the pool *)

(** A route parameter that the store reads as an integer, and one that it
    cannot read. *)
Lemma int_param_of_text (s : string) (n : Z) :
  int_of_text s = Some n -> int_param (VString s) = inr (Some n).
Proof.
  unfold int_of_text, int_param. by destruct (int4in s) as [e|k]; intros [= ->].
Qed.

Lemma int_param_unreadable (s : string) :
  int_of_text s = None -> exists e, int_param (VString s) = inl e.
Proof.
  unfold int_of_text, int_param. destruct (int4in s) as [e|k]; [eauto|done].
Qed.

Lemma digit_bounds (base : Z) (c : ascii) (d : Z) :
  digit base c = Some d -> (0 <= d < base)%Z.
Proof.
  unfold digit. set (n := Z.of_nat (nat_of_ascii c)).
  destruct ((48 <=? n) && (n <=? 57))%Z eqn:E1;
    [|destruct ((97 <=? n) && (n <=? 102))%Z eqn:E2;
      [|destruct ((65 <=? n) && (n <=? 70))%Z eqn:E3; [|discriminate]]].
  all: match goal with |- context [(?x <? ?b)%Z] =>
         destruct (x <? b)%Z eqn:Eb; [|discriminate] end.
  all: intros [= <-]; apply Z.ltb_lt in Eb.
  all: match goal with E : (_ && _)%bool = true |- _ =>
         apply andb_prop in E as [E _]; apply Z.leb_le in E end.
  all: lia.
Qed.

Lemma magnitude_nonneg (base : Z) (s : string) :
  forall (seen : bool) (acc k : Z) (rest : string),
    (0 <= acc)%Z ->
    magnitude base seen s acc = inr (k, rest) -> (0 <= k)%Z.
Proof.
  induction s as [|c s IH]; intros seen acc k rest Hacc; cbn.
  - destruct seen; [|discriminate]. by intros [= <- _].
  - destruct (digit base c) as [d|] eqn:Ed.
    + destruct (2147483648 / base <? acc)%Z; [discriminate|].
      apply IH. apply digit_bounds in Ed. nia.
    + destruct (Ascii.eqb c "_").
      * destruct (negb seen && (base =? 10)%Z); [discriminate|].
        destruct s as [|c' s']; [discriminate|].
        destruct (digit base c'); [|discriminate]. by apply IH.
      * destruct seen; [|discriminate]. by intros [= <- _].
Qed.

(** The integers that the store reads fit 32 bits. *)
Lemma int_of_text_range (s : string) (n : Z) :
  int_of_text s = Some n -> (-2147483648 <= n <= 2147483647)%Z.
Proof.
  unfold int_of_text, int4in. destruct (signed _) as [negative s1].
  destruct (based s1) as [base s2].
  destruct (magnitude base false s2 0) as [e|[k rest]] eqn:Em; [discriminate|].
  apply magnitude_nonneg in Em; [|done].
  destruct (blank rest); [|discriminate].
  destruct negative.
  - destruct (2147483648 <? k)%Z eqn:E; [discriminate|].
    intros [= <-]. apply Z.ltb_ge in E. lia.
  - destruct (2147483647 <? k)%Z eqn:E; [discriminate|].
    intros [= <-]. apply Z.ltb_ge in E. lia.
Qed.

(** A call that the environment does not fail runs on the scheduled client. *)
Lemma pool_exec_ok (q : stmt) (m : machine) (c : nat) :
  next_call m = (c, None) ->
  pool_exec q m =
    (match (exec_on c q (state m)).1 with
     | inl e => inl (PgError e)
     | inr rows => inr (scan q (next_order m) rows)
     end,
     Machine (exec_on c q (state m)).2 (tail (schedule m)) (salts m)
             (journal m ++ [(c, q)]) (tail (orders m))).
Proof.
  intros E. unfold pool_exec. rewrite E.
  destruct (exec_on c q (state m)). reflexivity.
Qed.

Lemma next_call_cons (m : machine) (call : nat * option sqlerr)
    (rest : list (nat * option sqlerr)) :
  schedule m = call :: rest -> next_call m = call.
Proof. unfold next_call. by intros ->. Qed.

(** A call that resolved was not failed by the environment, and ran; its
    rows are those the session found, in the order of the store's choice. *)
Lemma pool_exec_inr (q : stmt) (m m2 : machine) (c : nat)
    (fault : option sqlerr) (rows : list object) :
  next_call m = (c, fault) ->
  pool_exec q m = (inr rows, m2) ->
  fault = None /\
  exists found,
    exec_on c q (state m) = (inr found, state m2) /\
    rows = scan q (next_order m) found.
Proof.
  intros Hc E. unfold pool_exec in E. rewrite Hc in E.
  destruct fault as [e|]; [discriminate|].
  destruct (exec_on c q (state m)) as [[e|found] st]; [discriminate|].
  injection E as <- <-. eauto.
Qed.

(** A statement on a table, on a session whose transaction has not failed. *)
Lemma exec_on_tables (c : nat) (q : stmt) (st : store) :
  sessions st !! c ≠ Some Aborted ->
  is_control q = false ->
  exec_on c q st =
    match on_tables (columns st) q (view st c) (generators st) with
    | (inl e, g) => (inl e, abort c (perform c None g st))
    | (inr (rows, w), g) => (inr rows, perform c w g st)
    end.
Proof.
  intros Hc Hq. unfold exec_on.
  destruct (sessions st !! c) as [[ws|]|] eqn:E; try congruence;
    destruct q; try discriminate Hq; reflexivity.
Qed.

(** A table statement that resolved ran on a session whose transaction had
    not failed. *)
Lemma exec_on_inr_tables (c : nat) (q : stmt) (st st' : store)
    (rows : list object) :
  is_control q = false ->
  exec_on c q st = (inr rows, st') ->
  sessions st !! c <> Some Aborted /\
  exists w g,
    on_tables (columns st) q (view st c) (generators st) = (inr (rows, w), g) /\
    st' = perform c w g st.
Proof.
  intros Hq E.
  assert (Hs : sessions st !! c <> Some Aborted).
  { intros Hs. unfold exec_on in E. rewrite Hs in E.
    destruct q; discriminate. }
  split; [exact Hs|]. rewrite exec_on_tables in E by done.
  destruct (on_tables _ q (view st c) (generators st)) as [[e|[rows' w]] g];
    [discriminate|].
  injection E as -> <-. eauto.
Qed.

(** What a session sees after a write of its own. *)
Lemma view_perform (c : nat) (w : write) (g : seqs) (st : store) :
  sessions st !! c ≠ Some Aborted ->
  view (perform c (Some w) g st) c = apply w (view st c).
Proof.
  intros Hc. unfold view, perform.
  destruct (sessions st !! c) as [[ws|]|] eqn:E; try congruence; cbn.
  - rewrite lookup_insert_eq. unfold apply_all. rewrite foldl_app. reflexivity.
  - rewrite E. reflexivity.
Qed.

Lemma quiescent_view (st : store) (c : nat) :
  quiescent st -> view st c = committed st.
Proof. unfold quiescent, view. intros ->. by rewrite lookup_empty. Qed.

Lemma store_eq (a b : store) :
  committed a = committed b -> sessions a = sessions b ->
  generators a = generators b -> columns a = columns b -> a = b.
Proof. destruct a, b. cbn. by intros -> -> -> ->. Qed.

(** The order of the rows is an order of the same rows. *)
Lemma arrange_permutation {A : Type} (picks : list nat) (l : list A) :
  arrange picks l ≡ₚ l.
Proof.
  revert l. induction picks as [|i picks IH]; intros l; cbn; [done|].
  destruct (l !! i) as [x|] eqn:E; [|done].
  rewrite IH. symmetry. by apply delete_Permutation.
Qed.

(** And every order of the rows is one that the store can choose. *)
Lemma arrange_any {A : Type} (l l' : list A) :
  l' ≡ₚ l -> exists picks, arrange picks l = l'.
Proof.
  revert l. induction l' as [|x l' IH]; intros l Hl.
  - apply Permutation_nil_l in Hl as ->. by exists [].
  - assert (Hx : x ∈ l) by (rewrite <- Hl; apply list_elem_of_here).
    apply list_elem_of_lookup in Hx as [i Hi].
    destruct (IH (delete i l)) as [picks Hp].
    { apply (Permutation_cons_inv (a := x)).
      rewrite Hl. by apply delete_Permutation. }
    exists (i :: picks). cbn. by rewrite Hi, Hp.
Qed.

Lemma arrange_fmap {A B : Type} (f : A -> B) (picks : list nat) (l : list A) :
  arrange picks (f <$> l) = f <$> arrange picks l.
Proof.
  revert l. induction picks as [|i picks IH]; intros l; cbn; [done|].
  rewrite list_lookup_fmap. destruct (l !! i) as [x|] eqn:E; cbn; [|done].
  rewrite <- IH. f_equal. f_equal. clear. revert i.
  induction l as [|y l IHl]; intros [|i]; cbn; try done. by rewrite IHl.
Qed.

Lemma arrange_nil {A : Type} (picks : list nat) : arrange picks (@nil A) = [].
Proof. by destruct picks. Qed.

Lemma arrange_singleton {A : Type} (picks : list nat) (x : A) :
  arrange picks [x] = [x].
Proof.
  destruct picks as [|[|i] picks]; cbn; [done| |done].
  by rewrite arrange_nil.
Qed.

(** C4.  A login whose password is a string and whose lookup the store
    answers has one of three outcomes: 404 with [success: false] when no
    user row has the username; 401 with [success: false] when a row has it
    and the hasher does not verify the password against the stored hash; 200
    with [success: true] and the whole user row when it does. *)
Theorem login_three_way (h : hasher) (m : machine) (req_body : object)
    (c : nat) (pw : string) :
  get "password" req_body = VString pw ->
  next_call m = (c, None) ->
  sessions (state m) !! c ≠ Some Aborted ->
  ending (serve h (login req_body) m) = Returned tt /\
  responses (trace (serve h (login req_body) m)) =
    match lookup_user (get "username" req_body) (view (state m) c) with
    | [] => [(404, Json (failure "User not found"))]
    | u :: _ =>
        if verify h pw (User.password u) then
          [(200, Json (JObj [("user", JRow (User.to_object u));
                             ("success", JVal (VBool true));
                             ("message", JVal (VString "Login successful"))]))]
        else [(401, Json (failure "Incorrect password"))]
    end.
Proof.
  intros Hpw Hc Hs. unfold serve, login. rewrite Hpw. cbn.
  rewrite (pool_exec_ok _ _ _ Hc), exec_on_tables by done. cbn.
  destruct (lookup_user _ _) as [|u us]; cbn; [done|].
  destruct (verify h pw (User.password u)); cbn; done.
Qed.

(** Alice logs in with her password, and with a mistyped one. *)
Lemma login_three_way_witness :
  responses (trace (serve Sample.hasher (login Sample.alice_logs_in)
                          (Sample.machine []))) =
    [(200, Json (JObj [("user", JRow (User.to_object Sample.alice));
                       ("success", JVal (VBool true));
                       ("message", JVal (VString "Login successful"))]))]
  /\ responses (trace (serve Sample.hasher (login Sample.alice_mistypes)
                             (Sample.machine []))) =
       [(401, Json (failure "Incorrect password"))].
Proof.
  split.
  - apply (login_three_way Sample.hasher (Sample.machine [])
             Sample.alice_logs_in 0%nat "secret" eq_refl eq_refl).
    vm_compute. discriminate.
  - apply (login_three_way Sample.hasher (Sample.machine [])
             Sample.alice_mistypes 0%nat "Secret" eq_refl eq_refl).
    vm_compute. discriminate.
Defined.

(** C8, as amended.  Listing the plans of a user, when the call is not
    failed and the client that serves it is not in a failed transaction.
    For a user id that the store reads as an integer, the handler responds
    200 with the records [{plan_id, plan_name, description}] of the plans of
    that user that the session sees, which are the committed ones when the
    client has no transaction open, each once, in the order in which the
    store returns them; a user with no plan gets 200 with the empty
    sequence; the store is left as it was.  For a user id that the store
    cannot read as an integer, the handler responds 500.  The handler
    returns in both cases. *)
Theorem list_workout_plans_of_user (h : hasher) (m : machine)
    (user_id : string) (c : nat) :
  next_call m = (c, None) ->
  sessions (state m) !! c ≠ Some Aborted ->
  let r := serve h (list_workout_plans user_id) m in
  ending r = Returned tt /\
  match int_of_text user_id with
  | Some n =>
      let plans := plans_of n (view (state m) c) in
      let listed := arrange (next_order m) plans in
      trace r =
        [EvQuery (SelectWorkoutPlans (VString user_id))
                 (inr (Plan.summary <$> listed));
         EvSend 200 (Json (JRows (Plan.summary <$> listed)))] /\
      listed ≡ₚ plans /\
      (sessions (state m) !! c = None ->
       plans = plans_of n (committed (state m))) /\
      (plans = [] -> responses (trace r) = [(200, Json (JRows []))]) /\
      state (final r) = state m
  | None =>
      responses (trace r) = [(500, Json (failure "Internal Server Error"))]
  end.
Proof.
  intros Hc Hs r. subst r. unfold serve, list_workout_plans. cbn.
  rewrite (pool_exec_ok _ _ _ Hc), exec_on_tables by done. cbn.
  destruct (int_of_text user_id) as [n|] eqn:Hn.
  - rewrite (int_param_of_text _ _ Hn). cbn. split; [reflexivity|].
    unfold scan. cbn [is_listing]. rewrite arrange_fmap.
    split; [reflexivity|]. split; [apply arrange_permutation|].
    split; [intros E; unfold view; by rewrite E|].
    split; [intros ->; by rewrite arrange_nil|].
    by destruct (state m).
  - destruct (int_param_unreadable _ Hn) as [e ->]. cbn. split; reflexivity.
Qed.

(** The two plans of the user of the sample. *)
Lemma list_workout_plans_of_user_witness :
  responses (trace (serve Sample.hasher (list_workout_plans "1")
                          (Sample.machine []))) =
    [(200, Json (JRows [Plan.summary Sample.push_day;
                        Plan.summary Sample.pull_day]))].
Proof.
  destruct (list_workout_plans_of_user Sample.hasher (Sample.machine []) "1"
              0%nat eq_refl) as [_ Hlist].
  - vm_compute. discriminate.
  - hnf in Hlist. destruct Hlist as (Ht & _). exact (f_equal responses Ht).
Defined.

(** C8, as stated, fails in three ways.  The statement of the handler asks
    for no order, and the store may return the second plan of the user
    before the first, which was inserted before it.  A user id that is not a
    number, or that does not fit 32 bits, is answered with 500.  And on a
    client where an earlier deletion left a transaction open, the listing
    leaves out a plan that is still in the committed table. *)
Lemma list_workout_plans_other_order_or_error :
  plans_of 1 Sample.tables = [Sample.push_day; Sample.pull_day] /\
  plans_of 1 (committed (state Runs.leaked)) =
    [Sample.push_day; Sample.pull_day] /\
  responses (trace (serve Sample.hasher (list_workout_plans "1") Runs.leaked)) =
    [(200, Json (JRows [Plan.summary Sample.pull_day]))] /\
  responses (trace (serve Sample.hasher (list_workout_plans "1")
                          Runs.second_first)) =
    [(200, Json (JRows [Plan.summary Sample.pull_day;
                        Plan.summary Sample.push_day]))] /\
  responses (trace (serve Sample.hasher (list_workout_plans "abc")
                          (Sample.machine []))) =
    [(500, Json (failure "Internal Server Error"))] /\
  responses (trace (serve Sample.hasher (list_workout_plans "2147483648")
                          (Sample.machine []))) =
    [(500, Json (failure "Internal Server Error"))].
Proof. vm_compute. repeat split; reflexivity. Qed.

(** *** Registration *)

(** A body without a password: the hasher rejects the call, whatever the
    store holds, and the handler has sent nothing and left the machine as it
    was. *)
Lemma register_without_password (h : hasher) (m : machine) (req_body : object) :
  get "password" req_body = VUndefined ->
  serve h (register req_body) m =
    Result [EvHash VUndefined 10
              (inl (BcryptError "data and salt arguments required"))]
           (Rejected (BcryptError "data and salt arguments required")) m.
Proof. intros E. unfold serve, register. rewrite E. reflexivity. Qed.

(** The hashing call is rejected exactly when the password is not a
    string. *)
Lemma hash_call_rejects (h : hasher) (salt : string) (data : value) :
  (exists e, hash_call h salt data 10 = inl e) <-> (forall s, data <> VString s).
Proof.
  split.
  - intros [e E] s ->. discriminate.
  - intros Hs. destruct data; cbn; eauto. by destruct (Hs s).
Qed.

Lemma string_length_app (s1 s2 : string) :
  String.length (s1 +:+ s2) = (String.length s1 + String.length s2)%nat.
Proof. induction s1 as [|a s1 IH]; simpl; [reflexivity | by f_equal]. Qed.

(** The hasher of the sample is one way: its output is longer than its
    input. *)
Lemma sample_hasher_one_way : one_way Sample.hasher.
Proof.
  intros rounds salt data E. apply (f_equal String.length) in E.
  cbn [Sample.hasher digest] in E. rewrite !string_length_app in E.
  cbn [String.length] in E. lia.
Qed.

(** C7.  A registration whose password is a string, with a one-way hasher:
    the hash differs from the submitted password; when the insertion
    resolves the handler responds 201 with the row of the new user, whose
    password column is that hash and which the store did not hold before;
    when the insertion is rejected, whatever the error, the handler responds
    500 with the text [Internal Server Error] and nothing that tells the
    errors apart; a username that is already taken is such a rejection. *)
Theorem register_outcomes (h : hasher) (m : machine) (req_body : object)
    (pw : string) (c : nat) (fault : option sqlerr) :
  get "password" req_body = VString pw ->
  one_way h ->
  next_call m = (c, fault) ->
  let username := get "username" req_body in
  let hashed := digest h 10 (next_salt m) pw in
  let m1 :=
    Machine (state m) (schedule m) (tail (salts m)) (journal m) (orders m) in
  let r := serve h (register req_body) m in
  hashed <> pw /\
  (forall rows m2,
     pool_exec (InsertUser username (VString hashed)) m1 = (inr rows, m2) ->
     exists u,
       User.password u = hashed /\
       text_param username = Some (User.username u) /\
       (u ∈ users (view (state (final r)) c)) /\
       (u ∉ users (view (state m) c)) /\
       trace r =
         [EvHash (VString pw) 10 (inr hashed);
          EvQuery (InsertUser username (VString hashed))
                  (inr [User.to_object u]);
          EvSend 201 (Json (JRow (User.to_object u)))]) /\
  (forall e m2,
     pool_exec (InsertUser username (VString hashed)) m1 = (inl e, m2) ->
     responses (trace r) = [(500, Text "Internal Server Error")]) /\
  (forall name,
     fault = None ->
     sessions (state m) !! c <> Some Aborted ->
     text_param username = Some name ->
     users_named name (view (state m) c) <> [] ->
     pool_exec (InsertUser username (VString hashed)) m1 =
       (inl (PgError UniqueViolation),
        Machine (abort c (perform c None (draw_user (generators (state m)))
                                  (state m)))
                (tail (schedule m)) (tail (salts m))
                (journal m ++ [(c, InsertUser username (VString hashed))])
                (tail (orders m)))).
Proof.
  intros Hpw Hh Hc username hashed m1 r.
  assert (Hrun : forall res m2,
            pool_exec (InsertUser username (VString hashed)) m1 = (res, m2) ->
            r = Result
                  (EvHash (VString pw) 10 (inr hashed) ::
                   EvQuery (InsertUser username (VString hashed)) res ::
                   match res with
                   | inr rows => [EvSend 201 (Json (rows0 rows))]
                   | inl e => [EvLog e; EvSend 500 (Text "Internal Server Error")]
                   end)
                  (Returned tt) m2).
  { intros res m2 E. subst r. unfold serve, register. rewrite Hpw. cbn.
    fold hashed. fold m1. fold username. rewrite E. destruct res; reflexivity. }
  split; [apply Hh|]. split; [|split].
  - intros rows m2 E. rewrite (Hrun _ _ E). cbn.
    apply (pool_exec_inr _ _ _ c fault) in E as [-> (found & E & ->)];
      [|exact Hc].
    apply exec_on_inr_tables in E as (Hs & w & g & E & Hst); [|reflexivity].
    cbn in E, Hst. rewrite Hst. clear Hst.
    destruct (text_param username) as [name|] eqn:En; [|discriminate].
    cbn in E. destruct (decide _) as [Hfree|]; [|discriminate].
    injection E as <- <- <-.
    exists (User.Make (next_user (generators (state m))) name hashed).
    split; [reflexivity|]. split; [reflexivity|].
    split; [|split; [|reflexivity]].
    + rewrite view_perform by done. cbn.
      apply elem_of_app. right. by apply list_elem_of_singleton.
    + intros Hin. unfold users_named in Hfree.
      by apply (filter_nil_not_elem_of _ _ _ Hfree) in Hin.
  - intros e m2 E. rewrite (Hrun _ _ E). reflexivity.
  - intros name -> Hs Hn Hdup.
    unfold m1. rewrite (pool_exec_ok _ _ c) by done. cbn.
    rewrite exec_on_tables by done. cbn. fold username. rewrite Hn. cbn.
    destruct (decide _); [done|]. reflexivity.
Qed.

(** Bob registers: 201, and the stored password is the hash. *)
Lemma register_outcomes_witness :
  one_way Sample.hasher /\
  exists u : User.t,
    User.password u = "$2b$10$NaClhunter2" /\
    User.password u <> "hunter2" /\
    responses (trace (serve Sample.hasher (register Sample.bob_registers)
                            (Sample.machine []))) =
      [(201, Json (JRow (User.to_object u)))].
Proof.
  split; [exact sample_hasher_one_way|].
  destruct (register_outcomes Sample.hasher (Sample.machine [])
              Sample.bob_registers "hunter2" 0%nat None eq_refl
              sample_hasher_one_way eq_refl) as (Hne & Hok & _).
  destruct (Hok _ _ eq_refl) as (u & Hp & _ & _ & _ & Ht).
  exists u. split; [exact Hp|]. split; [rewrite Hp; exact Hne|].
  rewrite Ht. reflexivity.
Defined.

(** Alice is taken: the insertion is rejected and the response is the same
    500 as for any other error. *)
Lemma register_duplicate_username :
  trace (serve Sample.hasher
           (register [("username", VString "alice"); ("password", VString "x")])
           (Sample.machine [])) =
    [EvHash (VString "x") 10 (inr "$2b$10$NaClx");
     EvQuery (InsertUser (VString "alice") (VString "$2b$10$NaClx"))
             (inl (PgError UniqueViolation));
     EvLog (PgError UniqueViolation);
     EvSend 500 (Text "Internal Server Error")].
Proof. reflexivity. Qed.

(** *** Deleting a plan that is not there *)

Lemma filter_keeps_all {A : Type} (P Q : A -> Prop)
    `{!forall x, Decision (P x)} `{!forall x, Decision (Q x)} (l : list A) :
  (forall x, P x <-> ~ Q x) -> filter Q l = [] -> filter P l = l.
Proof.
  intros HPQ. induction l as [|x l IH]; [done|].
  rewrite !filter_cons. destruct (decide (Q x)) as [Hq|Hq]; [done|].
  intros Hl. destruct (decide (P x)) as [Hp|Hp].
  - by rewrite IH.
  - by apply HPQ in Hq.
Qed.

(** With every exercise in a plan, a plan that is not there has no
    exercise. *)
Lemma referential_no_exercises (n : Z) (d : db) :
  referential d -> plans_with n d = [] -> exercises_of n d = [].
Proof.
  unfold referential, exercises_of. intros Href Hn.
  induction (exercise d) as [|e es IH]; [done|].
  inversion Href as [|? ? He Hes]; subst. rewrite filter_cons.
  destruct (decide (Exercise.plan_id e = n)) as [<-|]; [done|]. by apply IH.
Qed.

Lemma apply_deleting_absent (n : Z) (w : write) (d : db) :
  plans_with n d = [] -> exercises_of n d = [] -> deleting n w -> apply w d = d.
Proof.
  intros Hp He [-> | ->]; destruct d as [us ps es]; cbn in *; f_equal.
  - by apply (filter_keeps_all _ (fun e => Exercise.plan_id e = n)).
  - by apply (filter_keeps_all _ (fun p => Plan.plan_id p = n)).
Qed.

Lemma apply_all_deleting_absent (n : Z) (ws : list write) (d : db) :
  plans_with n d = [] -> exercises_of n d = [] -> Forall (deleting n) ws ->
  apply_all ws d = d.
Proof.
  intros Hp He Hws. induction ws as [|w ws IH] using rev_ind; [done|].
  apply Forall_app in Hws as [Hws Hw]. inversion Hw; subst.
  unfold apply_all. rewrite foldl_app. cbn. fold (apply_all ws d).
  rewrite IH by done. by apply (apply_deleting_absent n).
Qed.

Lemma view_only_deleting (n : Z) (st : store) (c : nat) :
  plans_with n (committed st) = [] -> exercises_of n (committed st) = [] ->
  only_deleting n st -> view st c = committed st.
Proof.
  intros Hp He Hst. unfold view.
  destruct (sessions st !! c) as [s|] eqn:E; [|done].
  destruct (Hst _ _ E) as (ws & -> & Hws).
  by apply (apply_all_deleting_absent n).
Qed.

(** One statement of the deletion, for a plan that is not there. *)
Lemma exec_on_absent_plan (planId : string) (n : Z) (c : nat) (q : stmt)
    (st : store) :
  int_of_text planId = Some n ->
  plans_with n (committed st) = [] -> exercises_of n (committed st) = [] ->
  only_deleting n st ->
  q ∈ deletion_statements planId ->
  exists st',
    exec_on c q st = (inr [], st') /\
    committed st' = committed st /\ generators st' = generators st /\
    columns st' = columns st /\
    only_deleting n st'.
Proof.
  intros Hn Hp He Hst Hq.
  pose proof (int_param_of_text _ _ Hn) as Hi.
  pose proof (view_only_deleting n st c Hp He Hst) as Hview.
  assert (Hins : forall ws, Forall (deleting n) ws ->
            only_deleting n
              (Store (committed st) (<[c:=InTransaction ws]> (sessions st))
                     (generators st) (columns st))).
  { intros ws Hws c' s'. cbn. rewrite lookup_insert.
    destruct (decide (c = c')); [|by apply Hst].
    intros [= <-]. eauto. }
  assert (Hdel : only_deleting n
            (Store (committed st) (delete c (sessions st)) (generators st)
                   (columns st))).
  { intros c' s'. cbn. rewrite lookup_delete.
    destruct (decide (c = c')); [done | by apply Hst]. }
  unfold deletion_statements in Hq.
  apply elem_of_cons in Hq as [->|Hq];
    [|apply elem_of_cons in Hq as [->|Hq];
      [|apply elem_of_cons in Hq as [->|Hq];
        [|apply list_elem_of_singleton in Hq as ->]]].
  - unfold exec_on.
    destruct (sessions st !! c) as [s|] eqn:E.
    + destruct (Hst _ _ E) as (ws & -> & Hws). eexists. eauto 10.
    + eexists. split; [reflexivity|]. cbn. eauto.
  - assert (Hs : sessions st !! c <> Some Aborted).
    { intros E. by destruct (Hst _ _ E) as (ws & ? & _). }
    rewrite exec_on_tables by done. cbn. rewrite Hi.
    unfold perform.
    destruct (sessions st !! c) as [s|] eqn:E.
    + destruct (Hst _ _ E) as (ws & -> & Hws).
      eexists. split; [reflexivity|]. cbn. do 3 (split; [done|]).
      apply Hins. apply Forall_app. split; [done|]. repeat constructor.
    + eexists. split; [reflexivity|]. cbn [committed generators columns].
      rewrite (apply_deleting_absent n) by (done || by left).
      do 3 (split; [done|]). intros c' s'. cbn. apply Hst.
  - assert (Hs : sessions st !! c <> Some Aborted).
    { intros E. by destruct (Hst _ _ E) as (ws & ? & _). }
    rewrite exec_on_tables by done. cbn. rewrite Hi, Hview, Hp.
    change (Plan.to_object <$> []) with (@nil object).
    unfold perform.
    destruct (sessions st !! c) as [s|] eqn:E.
    + destruct (Hst _ _ E) as (ws & -> & Hws).
      eexists. split; [reflexivity|]. cbn. do 3 (split; [done|]).
      apply Hins. apply Forall_app. split; [done|].
      constructor; [by right | constructor].
    + eexists. split; [reflexivity|]. cbn [committed generators columns].
      rewrite (apply_deleting_absent n) by (done || by right).
      do 3 (split; [done|]). intros c' s'. cbn. apply Hst.
  - unfold exec_on.
    destruct (sessions st !! c) as [s|] eqn:E.
    + destruct (Hst _ _ E) as (ws & -> & Hws).
      eexists. split; [reflexivity|]. cbn [committed generators columns].
      rewrite (apply_all_deleting_absent n) by done. eauto.
    + eexists. split; [reflexivity|]. eauto.
Qed.

Lemma dom_insert_present (c : nat) (s s' : session) (ss : gmap nat session) :
  ss !! c = Some s -> dom (<[c:=s']> ss) = dom ss.
Proof.
  intros E. rewrite dom_insert_L. apply subseteq_union_1_L.
  apply singleton_subseteq_l, elem_of_dom. eauto.
Qed.

Lemma dom_delete_absent (c : nat) (ss : gmap nat session) :
  ss !! c = None -> dom ss ∖ {[c]} = dom ss.
Proof.
  intros E. apply difference_disjoint_L, disjoint_singleton_r.
  by apply not_elem_of_dom.
Qed.

(** Which sessions have a transaction open after a statement on client [c]. *)
Lemma exec_on_dom (c : nat) (q : stmt) (st : store) :
  dom (sessions (exec_on c q st).2) =
    match q with
    | Begin => {[c]} ∪ dom (sessions st)
    | Commit | Rollback => dom (sessions st) ∖ {[c]}
    | _ => dom (sessions st)
    end.
Proof.
  destruct (is_control q) eqn:Hq.
  - unfold exec_on.
    destruct (sessions st !! c) as [s|] eqn:E.
    + assert (Hc : {[c]} ∪ dom (sessions st) = dom (sessions st)).
      { apply subseteq_union_1_L, singleton_subseteq_l, elem_of_dom. eauto. }
      destruct s as [ws|], q; try discriminate Hq; cbn;
        rewrite ?dom_delete_L, ?Hc; done.
    + pose proof (dom_delete_absent c _ E) as Hout.
      destruct q; try discriminate Hq; cbn; rewrite ?dom_insert_L, ?Hout; done.
  - transitivity (dom (sessions st)); [|by destruct q].
    assert (sessions st !! c = Some Aborted \/ sessions st !! c <> Some Aborted)
      as [E|E] by (destruct (sessions st !! c) as [[ws|]|]; auto).
    + unfold exec_on. rewrite E. by destruct q.
    + rewrite exec_on_tables by done.
      destruct (on_tables _ _ _ _) as [[e|[rows w]] g]; cbn;
        unfold abort, perform; cbn.
      * destruct (sessions st !! c) eqn:E'; cbn; [|done].
        by rewrite (dom_insert_present _ _ _ _ E').
      * destruct w as [w|], (sessions st !! c) as [[ws|]|] eqn:E'; cbn; try done.
        by rewrite (dom_insert_present _ _ _ _ E').
Qed.

(** The deletion of a plan that is not there, from any store whose open
    transactions hold nothing but deletions for that plan. *)
Lemma deletion_of_absent_plan (h : hasher) (m : machine) (planId : string)
    (n : Z) (c1 c2 c3 c4 : nat) (rest : list (nat * option sqlerr)) :
  int_of_text planId = Some n ->
  plans_with n (committed (state m)) = [] ->
  exercises_of n (committed (state m)) = [] ->
  only_deleting n (state m) ->
  schedule m = (c1, None) :: (c2, None) :: (c3, None) :: (c4, None) :: rest ->
  exists st4 : store,
    serve h (delete_workout_plan planId) m =
      Result
        [EvQuery Begin (inr []);
         EvQuery (DeleteExercises (VString planId)) (inr []);
         EvQuery (DeleteWorkoutPlan (VString planId)) (inr []);
         EvQuery Commit (inr []);
         EvSend 404 (Json (failure "Workout plan not found."))]
        (Returned tt)
        (Machine st4 rest (salts m)
           ((((journal m ++ [(c1, Begin)]) ++
              [(c2, DeleteExercises (VString planId))]) ++
             [(c3, DeleteWorkoutPlan (VString planId))]) ++
            [(c4, Commit)])
           (tail (tail (tail (tail (orders m)))))) /\
    committed st4 = committed (state m) /\
    generators st4 = generators (state m) /\
    columns st4 = columns (state m) /\
    only_deleting n st4 /\
    dom (sessions st4) = ({[c1]} ∪ dom (sessions (state m))) ∖ {[c4]}.
Proof.
  intros Hn Hp He H0 Hsched.
  destruct (exec_on_absent_plan planId n c1 Begin (state m))
    as (st1 & E1 & Hc1 & Hg1 & Ht1 & H1); try done; [by repeat constructor|].
  rewrite <- Hc1 in Hp, He.
  destruct (exec_on_absent_plan planId n c2 (DeleteExercises (VString planId)) st1)
    as (st2 & E2 & Hc2 & Hg2 & Ht2 & H2); try done; [by repeat constructor|].
  rewrite <- Hc2 in Hp, He.
  destruct (exec_on_absent_plan planId n c3 (DeleteWorkoutPlan (VString planId)) st2)
    as (st3 & E3 & Hc3 & Hg3 & Ht3 & H3); try done; [by repeat constructor|].
  rewrite <- Hc3 in Hp, He.
  destruct (exec_on_absent_plan planId n c4 Commit st3)
    as (st4 & E4 & Hc4 & Hg4 & Ht4 & H4); try done; [by repeat constructor|].
  set (j := journal m).
  set (m1 := Machine st1 ((c2, None) :: (c3, None) :: (c4, None) :: rest)
                     (salts m) (j ++ [(c1, Begin)]) (tail (orders m))).
  set (m2 := Machine st2 ((c3, None) :: (c4, None) :: rest) (salts m)
                     ((j ++ [(c1, Begin)]) ++
                      [(c2, DeleteExercises (VString planId))])
                     (tail (tail (orders m)))).
  set (m3 := Machine st3 ((c4, None) :: rest) (salts m)
                     (((j ++ [(c1, Begin)]) ++
                       [(c2, DeleteExercises (VString planId))]) ++
                      [(c3, DeleteWorkoutPlan (VString planId))])
                     (tail (tail (tail (orders m))))).
  exists st4.
  split; [|split; [congruence|split; [congruence|split; [congruence|split; [done|]]]]].
  - unfold serve.
    apply (run_deletion_resolved (H := pg_env h) planId m m1 m2 m3 _ [] [] [] []);
      cbn [env_query pg_env].
    + rewrite (pool_exec_ok _ _ c1) by (by apply next_call_cons in Hsched).
      rewrite E1, Hsched. reflexivity.
    + rewrite (pool_exec_ok _ _ c2) by done. cbn [state m1]. rewrite E2. reflexivity.
    + rewrite (pool_exec_ok _ _ c3) by done. cbn [state m2]. rewrite E3. reflexivity.
    + rewrite (pool_exec_ok _ _ c4) by done. cbn [state m3]. rewrite E4. reflexivity.
  - pose proof (exec_on_dom c1 Begin (state m)) as D1.
    pose proof (exec_on_dom c2 (DeleteExercises (VString planId)) st1) as D2.
    pose proof (exec_on_dom c3 (DeleteWorkoutPlan (VString planId)) st2) as D3.
    pose proof (exec_on_dom c4 Commit st3) as D4.
    rewrite E1 in D1. rewrite E2 in D2. rewrite E3 in D3. rewrite E4 in D4.
    cbn in D1, D2, D3, D4. by rewrite D4, D3, D2, D1.
Qed.

(** The deletion for a plan id that the store cannot read as an integer:
    the deletion of the exercises is rejected and the handler rolls back. *)
Lemma deletion_of_unreadable_plan (h : hasher) (m : machine) (planId : string)
    (c1 c2 c3 : nat) (rest : list (nat * option sqlerr)) :
  int_of_text planId = None ->
  quiescent (state m) ->
  schedule m = (c1, None) :: (c2, None) :: (c3, None) :: rest ->
  let r := serve h (delete_workout_plan planId) m in
  statements (trace r) = [Begin; DeleteExercises (VString planId); Rollback] /\
  responses (trace r) = [(500, Json (failure "Internal Server Error"))] /\
  committed (state (final r)) = committed (state m) /\
  generators (state (final r)) = generators (state m).
Proof.
  intros Hnone Hq Hsched r. subst r.
  destruct (int_param_unreadable _ Hnone) as [e Hi].
  destruct m as [[d s g ty] sch sl j os]. unfold quiescent in Hq.
  cbn in Hq, Hsched. subst s sch. unfold serve, delete_workout_plan.
  cbn. unfold exec_on. cbn. rewrite lookup_empty. cbn.
  unfold exec_on. cbn. rewrite Hi.
  destruct (decide (c1 = c2)) as [<-|Hc2].
  - rewrite lookup_insert_eq. cbn. unfold abort, perform. cbn.
    rewrite lookup_insert_eq. cbn. unfold exec_on. cbn.
    destruct (decide (c1 = c3)) as [<-|Hc3].
    + rewrite lookup_insert_eq. cbn. done.
    + rewrite lookup_insert_ne, lookup_insert_ne, lookup_empty by done. cbn. done.
  - rewrite lookup_insert_ne, lookup_empty by done. cbn. unfold abort, perform. cbn.
    rewrite lookup_insert_ne, lookup_empty by done. cbn. unfold exec_on. cbn.
    destruct (decide (c1 = c3)) as [<-|Hc3].
    + rewrite lookup_insert_eq. cbn. done.
    + rewrite lookup_insert_ne, lookup_empty by done. cbn. done.
Qed.

(** Deleting the plan that is not there a second time is the same no-op. *)
Lemma delete_missing_plan_again (h : hasher) (m : machine) (planId : string)
    (n : Z) (c1 c2 c3 c4 c5 c6 c7 c8 : nat)
    (rest : list (nat * option sqlerr)) :
  int_of_text planId = Some n ->
  quiescent (state m) ->
  referential (committed (state m)) ->
  plans_with n (committed (state m)) = [] ->
  schedule m =
    (c1, None) :: (c2, None) :: (c3, None) :: (c4, None) ::
    (c5, None) :: (c6, None) :: (c7, None) :: (c8, None) :: rest ->
  let r1 := serve h (delete_workout_plan planId) m in
  let r2 := serve h (delete_workout_plan planId) (final r1) in
  responses (trace r2) = [(404, Json (failure "Workout plan not found."))] /\
  committed (state (final r2)) = committed (state m) /\
  generators (state (final r2)) = generators (state m).
Proof.
  intros Hn Hq Href Hp Hsched r1 r2.
  pose proof (referential_no_exercises _ _ Href Hp) as He.
  assert (H0 : only_deleting n (state m)).
  { intros c s. rewrite Hq, lookup_empty. done. }
  destruct (deletion_of_absent_plan h m planId n c1 c2 c3 c4
              ((c5, None) :: (c6, None) :: (c7, None) :: (c8, None) :: rest))
    as (st4 & Hrun & Hc & Hg & Hty & H4 & _); try done.
  subst r2 r1. rewrite Hrun. cbn [final].
  match goal with |- context [serve h _ ?m'] => set (m4 := m') end.
  destruct (deletion_of_absent_plan h m4 planId n c5 c6 c7 c8 rest)
    as (st8 & Hrun' & Hc' & Hg' & _); try done;
    cbn [state m4]; rewrite ?Hc; try done.
  rewrite Hrun'. cbn [trace final state responses]. cbn [state m4] in Hc', Hg'.
  split; [reflexivity|]. split; congruence.
Qed.

(** C5, as amended.  Deleting a plan that is not there, on a store in which
    every exercise belongs to a plan and no transaction is open, when the
    calls are not failed.  For a plan id that the store reads as an integer,
    the four statements resolve, the two deletions with no row, and the
    handler responds 404 with [{success: false, message: "Workout plan not
    found."}]; the committed tables and the sequences are what they were,
    and so is what every session sees; when [COMMIT] runs on the client that
    ran [BEGIN], the whole store is what it was; and deleting the plan once
    more, on whatever clients, is answered with 404 again and leaves the
    committed tables and the sequences as they were.  For a plan id that the
    store cannot read as an integer, which matches no plan either, the
    deletion of the exercises is rejected and the handler rolls back and
    responds 500; the committed tables are what they were. *)
Theorem delete_missing_plan_not_found (h : hasher) (m : machine)
    (planId : string) (c1 c2 c3 c4 : nat)
    (rest : list (nat * option sqlerr)) :
  quiescent (state m) ->
  referential (committed (state m)) ->
  schedule m = (c1, None) :: (c2, None) :: (c3, None) :: (c4, None) :: rest ->
  let r := serve h (delete_workout_plan planId) m in
  (forall n : Z,
     int_of_text planId = Some n ->
     plans_with n (committed (state m)) = [] ->
     trace r =
       [EvQuery Begin (inr []);
        EvQuery (DeleteExercises (VString planId)) (inr []);
        EvQuery (DeleteWorkoutPlan (VString planId)) (inr []);
        EvQuery Commit (inr []);
        EvSend 404 (Json (failure "Workout plan not found."))] /\
     committed (state (final r)) = committed (state m) /\
     generators (state (final r)) = generators (state m) /\
     (forall c, view (state (final r)) c = committed (state m)) /\
     (c1 = c4 -> state (final r) = state m) /\
     (forall (c5 c6 c7 c8 : nat) (rest' : list (nat * option sqlerr)),
        rest = (c5, None) :: (c6, None) :: (c7, None) :: (c8, None) :: rest' ->
        let r2 := serve h (delete_workout_plan planId) (final r) in
        responses (trace r2) =
          [(404, Json (failure "Workout plan not found."))] /\
        committed (state (final r2)) = committed (state m) /\
        generators (state (final r2)) = generators (state m))) /\
  (int_of_text planId = None ->
   statements (trace r) = [Begin; DeleteExercises (VString planId); Rollback] /\
   responses (trace r) = [(500, Json (failure "Internal Server Error"))] /\
   committed (state (final r)) = committed (state m) /\
   generators (state (final r)) = generators (state m)).
Proof.
  intros Hq Href Hsched r. split.
  - intros n Hn Hp.
    pose proof (referential_no_exercises _ _ Href Hp) as He.
    assert (H0 : only_deleting n (state m)).
    { intros c s. rewrite Hq, lookup_empty. done. }
    destruct (deletion_of_absent_plan h m planId n c1 c2 c3 c4 rest)
      as (st4 & Hrun & Hc & Hg & Hty & H4 & Hdom); try done.
    split; [subst r; by rewrite Hrun|].
    split; [subst r; by rewrite Hrun|].
    split; [subst r; by rewrite Hrun|].
    split; [|split].
    + intros c. subst r. rewrite Hrun. cbn [final state].
      rewrite (view_only_deleting n); rewrite ?Hc; done.
    + intros <-. subst r. rewrite Hrun. cbn [final state].
      apply store_eq; [done| |done|done]. rewrite Hq.
      apply dom_empty_inv_L. rewrite Hdom, Hq, dom_empty_L.
      by rewrite union_empty_r_L, difference_diag_L.
    + intros c5 c6 c7 c8 rest' ->.
      by apply (delete_missing_plan_again h m planId n c1 c2 c3 c4 c5 c6 c7 c8
                  rest').
  - intros Hnone.
    by apply (deletion_of_unreadable_plan h m planId c1 c2 c3 ((c4, None) :: rest)).
Qed.

Lemma sample_referential : referential Sample.tables.
Proof.
  unfold referential. repeat (constructor; [by vm_compute|]). constructor.
Qed.

(** C5, as stated, fails in two ways.  A plan id that is not a number, or
    that does not fit 32 bits, matches no plan and is answered with 500, not
    404.  And with a transaction left open on a client by an earlier
    deletion whose calls landed on two clients, deleting plan 7, which is
    not there, is answered with 404 while the [COMMIT] of the handler
    commits what was left open: plan 1 leaves the committed table. *)
Lemma delete_missing_plan_error_or_change :
  int_of_text "abc" = None /\
  responses (trace (serve Sample.hasher (delete_workout_plan "abc")
                          (Sample.machine Sample.one_client))) =
    [(500, Json (failure "Internal Server Error"))] /\
  int_of_text "2147483648" = None /\
  responses (trace (serve Sample.hasher (delete_workout_plan "2147483648")
                          (Sample.machine Sample.one_client))) =
    [(500, Json (failure "Internal Server Error"))] /\
  plans_with 7 (committed (state Runs.left_open)) = [] /\
  plans_with 1 (committed (state Runs.left_open)) = [Sample.push_day] /\
  responses (trace (serve Sample.hasher (delete_workout_plan "7")
                          Runs.left_open)) =
    [(404, Json (failure "Workout plan not found."))] /\
  plans_with 1 (committed (state (final
      (serve Sample.hasher (delete_workout_plan "7") Runs.left_open)))) = [].
Proof. vm_compute. repeat split; reflexivity. Qed.

(** There is no plan 7 in the sample. *)
Lemma delete_missing_plan_not_found_witness :
  referential Sample.tables /\
  plans_with 7 Sample.tables = [] /\
  responses (trace Sample.deleted_missing) =
    [(404, Json (failure "Workout plan not found."))] /\
  committed (state (final Sample.deleted_missing)) = Sample.tables.
Proof.
  destruct (delete_missing_plan_not_found Sample.hasher
              (Sample.machine Sample.across_clients) "7" 0%nat 1%nat
              0%nat 0%nat [] eq_refl sample_referential eq_refl)
    as [Hfound _].
  destruct (Hfound 7 eq_refl eq_refl) as (H1 & H2 & _).
  split; [exact sample_referential|]. split; [reflexivity|].
  split; [exact (f_equal responses H1) | exact H2].
Defined.
(** *** Creating an exercise and listing the exercises of its plan *)

(** The values that a column gives back as they were bound. *)
Lemma read_kept (t : coltype) (v : value) : kept t v -> read t v = inr v.
Proof.
  destruct v as [| |b|n|s], t; cbn; try done.
  intros [Hlo Hhi]. unfold int_param.
  apply Z.leb_le in Hlo, Hhi. by rewrite Hlo, Hhi.
Qed.

(** When the store accepts the insertion of an exercise: the plan id reads
    as an integer and names a plan that the session sees, each field reads
    at the type of its column, the call is not failed and the client is not
    in a failed transaction. *)
Lemma insert_exercise_accepted (m : machine) (planId : string) (n : Z)
    (req_body : object) (c : nat) (name count times text : value) :
  int_of_text planId = Some n ->
  next_call m = (c, None) ->
  sessions (state m) !! c <> Some Aborted ->
  plans_with n (view (state m) c) <> [] ->
  read (columns (state m) "exercise_name") (get "exercise_name" req_body) =
    inr name ->
  read (columns (state m) "sets") (get "sets" req_body) = inr count ->
  read (columns (state m) "repetitions") (get "repetitions" req_body) =
    inr times ->
  read (columns (state m) "notes") (get "notes" req_body) = inr text ->
  exists m1,
    pool_exec (InsertExercise (VString planId) (get "exercise_name" req_body)
                 (get "sets" req_body) (get "repetitions" req_body)
                 (get "notes" req_body)) m =
      (inr [Exercise.to_object
              (Exercise.Make (next_exercise (generators (state m))) n name
                             count times text)], m1).
Proof.
  intros Hn Hc Hs Hp R1 R2 R3 R4.
  rewrite (pool_exec_ok _ _ c Hc), exec_on_tables by done. cbn [on_tables].
  rewrite (int_param_of_text _ _ Hn), R1, R2, R3, R4.
  destruct (decide _) as [E|_]; [done|]. cbn. eauto.
Qed.

(** C6, as amended.  Creating an exercise and then listing the exercises of
    its plan, on a store with no transaction open, when the two calls are
    not failed and the store accepts the insertion.  The plan id reads as an
    integer and names a plan that is there.  The creation responds 201 with
    [{success, message, exercise}] where [exercise] is the new row; each of
    the four submitted fields is in the new row as the store read it at the
    type of its column, which is the field as submitted when it was
    submitted at that type.  The listing responds 200 with the exercises
    that the plan had before and the new row, each once, in the order in
    which the store returns them; it is the new row alone when the plan had
    no exercise before. *)
Theorem create_exercise_then_list (h : hasher) (m m1 : machine)
    (planId : string) (req_body : object) (c1 c2 : nat)
    (rest : list (nat * option sqlerr)) (rows : list object) :
  quiescent (state m) ->
  schedule m = (c1, None) :: (c2, None) :: rest ->
  pool_exec (InsertExercise (VString planId) (get "exercise_name" req_body)
               (get "sets" req_body) (get "repetitions" req_body)
               (get "notes" req_body)) m = (inr rows, m1) ->
  let r1 := serve h (create_exercise planId req_body) m in
  let r2 := serve h (list_exercises planId) (final r1) in
  exists (created : Exercise.t) (listed : list Exercise.t),
    int_of_text planId = Some (Exercise.plan_id created) /\
    plans_with (Exercise.plan_id created) (committed (state m)) <> [] /\
    (forall k : string,
       k ∈ ["exercise_name"; "sets"; "repetitions"; "notes"] ->
       read (columns (state m) k) (get k req_body) =
         inr (get k (Exercise.to_object created)) /\
       (kept (columns (state m) k) (get k req_body) ->
        get k (Exercise.to_object created) = get k req_body)) /\
    responses (trace r1) =
      [(201, Json (JObj
         [("success", JVal (VBool true));
          ("message", JVal (VString "Exercise added to workout plan successfully."));
          ("exercise", JRow (Exercise.to_object created))]))] /\
    responses (trace r2) =
      [(200, Json (JRows (Exercise.to_object <$> listed)))] /\
    listed ≡ₚ
      exercises_of (Exercise.plan_id created) (committed (state m)) ++ [created] /\
    (exercises_of (Exercise.plan_id created) (committed (state m)) = [] ->
     listed = [created]).
Proof.
  intros Hq Hsched Hacc r1 r2.
  assert (Hs : forall c, sessions (state m) !! c = None).
  { intros c. rewrite Hq. apply lookup_empty. }
  assert (Hc1 : next_call m = (c1, None)) by (by apply next_call_cons in Hsched).
  pose proof Hacc as Hrun.
  rewrite (pool_exec_ok _ _ c1 Hc1) in Hacc.
  rewrite exec_on_tables in Hacc by (by rewrite ?Hs).
  rewrite quiescent_view in Hacc by done. cbn [on_tables] in Hacc.
  destruct (int_param (VString planId)) as [e|[n|]] eqn:Hi;
    destruct (read (columns (state m) "exercise_name")
                   (get "exercise_name" req_body)) as [?|name] eqn:R1;
    destruct (read (columns (state m) "sets") (get "sets" req_body))
      as [?|count] eqn:R2;
    destruct (read (columns (state m) "repetitions")
                   (get "repetitions" req_body)) as [?|times] eqn:R3;
    destruct (read (columns (state m) "notes") (get "notes" req_body))
      as [?|text] eqn:R4;
    try discriminate Hacc.
  destruct (decide (plans_with n (committed (state m)) = [])) as [|Hp];
    [discriminate Hacc|].
  cbn in Hacc. unfold perform in Hacc. rewrite Hs, Hsched in Hacc.
  injection Hacc as <- <-.
  set (created := Exercise.Make (next_exercise (generators (state m))) n name
                                count times text) in *.
  assert (Hn : int_of_text planId = Some n).
  { unfold int_of_text. unfold int_param in Hi.
    destruct (int4in planId); by inversion Hi. }
  exists created, (arrange (next_order (final r1))
                     (exercises_of n (committed (state m)) ++ [created])).
  cbn [Exercise.plan_id created].
  assert (E1 : r1 = Result
            [EvQuery (InsertExercise (VString planId) (get "exercise_name" req_body)
                        (get "sets" req_body) (get "repetitions" req_body)
                        (get "notes" req_body))
                     (inr [Exercise.to_object created]);
             EvSend 201 (Json (JObj
               [("success", JVal (VBool true));
                ("message", JVal (VString "Exercise added to workout plan successfully."));
                ("exercise", JRow (Exercise.to_object created))]))]
            (Returned tt)
            (Machine (Store (apply (AddExercise created) (committed (state m)))
                            (sessions (state m))
                            (draw_exercise (generators (state m)))
                            (columns (state m)))
                     ((c2, None) :: rest) (salts m)
                     (journal m ++ [(c1, InsertExercise (VString planId)
                        (get "exercise_name" req_body) (get "sets" req_body)
                        (get "repetitions" req_body) (get "notes" req_body))])
                     (tail (orders m)))).
  { subst r1. unfold serve, create_exercise. cbn. rewrite Hrun. reflexivity. }
  split; [exact Hn|]. split; [exact Hp|]. split; [|split; [by rewrite E1|split]].
  - intros k Hk.
    assert (Hread : read (columns (state m) k) (get k req_body) =
                    inr (get k (Exercise.to_object created))).
    { repeat (apply elem_of_cons in Hk as [->|Hk]; [done|]).
      by apply elem_of_nil in Hk. }
    split; [exact Hread|]. intros Hkept.
    rewrite (read_kept _ _ Hkept) in Hread. by injection Hread.
  - subst r2. rewrite E1. unfold serve, list_exercises. cbn.
    rewrite exec_on_tables by (by cbn; rewrite ?Hs). cbn. rewrite Hi. cbn.
    unfold view. cbn. rewrite Hs. unfold scan. cbn [is_listing].
    rewrite arrange_fmap. unfold exercises_of. cbn.
    rewrite filter_app, filter_cons, filter_nil, decide_True by done.
    reflexivity.
  - split; [apply arrange_permutation|].
    intros ->. apply arrange_singleton.
Qed.

(** A text column gives a number back as text, and an integer column gives
    the text of an integer back as a number. *)
Lemma read_converts :
  read TextColumn (VNumber 20) = inr (VString "20") /\
  read IntegerColumn (VString "4") = inr (VNumber 4).
Proof. split; reflexivity. Qed.

(** C6, as stated, fails in four ways.  On a plan that has exercises already
    the listing after the creation holds them too, not the created exercise
    alone.  A field comes back at the type of its column and not as it was
    submitted: notes submitted as the number 20 are the text [20] in the new
    row.  A plan id that names no plan is answered with 500.  And with a
    transaction left open on a client by an earlier deletion whose calls
    landed on two clients, the creation served by that client is answered
    with 201 while the listing served by another client does not hold the
    new row. *)
Lemma create_exercise_listing_not_only_created :
  responses (trace Sample.squat_added) =
    [(201, Json (JObj
       [("success", JVal (VBool true));
        ("message", JVal (VString "Exercise added to workout plan successfully."));
        ("exercise", JRow Sample.squat_row)]))] /\
  responses (trace Sample.squat_listed) =
    [(200, Json (JRows [Exercise.to_object Sample.bench;
                        Exercise.to_object Sample.dips; Sample.squat_row]))] /\
  responses (trace Sample.squat_listed) <>
    [(200, Json (JRows [Sample.squat_row]))] /\
  (exists row : object,
     responses (trace (serve Sample.hasher (create_exercise "2" Runs.lunges)
                             (Sample.machine Sample.one_client))) =
       [(201, Json (JObj
          [("success", JVal (VBool true));
           ("message", JVal (VString "Exercise added to workout plan successfully."));
           ("exercise", JRow row)]))] /\
     get "notes" row = VString "20" /\
     get "notes" Runs.lunges = VNumber 20) /\
  responses (trace (serve Sample.hasher (create_exercise "7" Sample.squats)
                          (Sample.machine Sample.one_client))) =
    [(500, Json (failure "Internal Server Error"))] /\
  responses (trace (serve Sample.hasher (create_exercise "2" Sample.squats)
                          Runs.left_open_two)) =
    [(201, Json (JObj
       [("success", JVal (VBool true));
        ("message", JVal (VString "Exercise added to workout plan successfully."));
        ("exercise",
         JRow [("exercise_id", VNumber 3); ("plan_id", VNumber 2);
               ("exercise_name", VString "Squat"); ("sets", VNumber 5);
               ("repetitions", VNumber 5);
               ("notes", VString "below parallel")])]))] /\
  responses (trace (serve Sample.hasher (list_exercises "2")
      (final (serve Sample.hasher (create_exercise "2" Sample.squats)
                    Runs.left_open_two)))) =
    [(200, Json (JRows []))].
Proof.
  split; [vm_compute; reflexivity|]. split; [vm_compute; reflexivity|].
  split; [vm_compute; discriminate|].
  split; [eexists; vm_compute; repeat split; reflexivity|].
  vm_compute. repeat split; reflexivity.
Qed.

(** On the plan of the sample that has no exercise, the listing is the
    created exercise alone. *)
Lemma create_exercise_then_list_witness :
  responses (trace Sample.pull_squat_listed) =
    [(200, Json (JRows
       [[("exercise_id", VNumber 3); ("plan_id", VNumber 2);
         ("exercise_name", VString "Squat"); ("sets", VNumber 5);
         ("repetitions", VNumber 5); ("notes", VString "below parallel")]]))].
Proof.
  destruct (create_exercise_then_list Sample.hasher
              (Sample.machine Sample.one_client) _ "2" Sample.squats
              0%nat 0%nat [(0%nat, None); (0%nat, None)] _
              eq_refl eq_refl eq_refl)
    as (created & listed & Hn & _ & _ & H201 & H200 & _ & Hone).
  injection Hn as Hn.
  assert (Hc : created =
               Exercise.Make 3 2 (VString "Squat") (VNumber 5) (VNumber 5)
                             (VString "below parallel")).
  { destruct created. vm_compute in H201. by injection H201 as <- <- <- <- <- <-. }
  unfold Sample.pull_squat_listed, Sample.pull_squat_added.
  rewrite H200, Hone; [by rewrite Hc|]. by rewrite <- Hn.
Defined.


(** *** The deletion and the pool

    When one client serves every call of the handler, the deletion is all
    or nothing on the committed tables, whichever calls fail: either the
    four statements resolve, the exercises of the plan and the plan are gone
    and no transaction is left open; or some call fails, [ROLLBACK] is
    issued and the committed tables are what they were. *)
Lemma deletion_on_one_client (h : hasher) (m : machine) (planId : string)
    (n : Z) (c : nat) (f1 f2 f3 f4 f5 : option sqlerr)
    (rest : list (nat * option sqlerr)) :
  int_of_text planId = Some n ->
  quiescent (state m) ->
  schedule m = (c, f1) :: (c, f2) :: (c, f3) :: (c, f4) :: (c, f5) :: rest ->
  let r := serve h (delete_workout_plan planId) m in
  let d := committed (state m) in
  match f1, f2, f3, f4 with
  | None, None, None, None =>
      committed (state (final r)) = apply (DelPlan n) (apply (DelExercises n) d)
      /\ quiescent (state (final r))
      /\ responses (trace r) =
           [match plans_with n d with
            | [] => (404, Json (failure "Workout plan not found."))
            | _ :: _ =>
                (200, Json (JObj [("success", JVal (VBool true));
                                  ("message", JVal (VString (deleted_message planId)))]))
            end]
  | _, _, _, _ =>
      committed (state (final r)) = d
      /\ Rollback ∈ statements (trace r)
      /\ (responses (trace r) = [(500, Json (failure "Internal Server Error"))]
          \/ responses (trace r) = [])
  end.
Proof.
  intros Hn Hq Hsched r d. subst r d.
  pose proof (int_param_of_text _ _ Hn) as Hi.
  destruct m as [[d s g ty] sch sl j os]. unfold quiescent in Hq.
  cbn in Hq, Hsched. subst s sch. unfold serve, delete_workout_plan.
  destruct f1 as [e1|]; [destruct f2|destruct f2 as [e2|]; [destruct f3|
    destruct f3 as [e3|]; [destruct f4|destruct f4 as [e4|]; [destruct f5|]]]].
  all: repeat (cbn; unfold exec_on, abort, perform, view; cbn;
               rewrite ?Hi, ?lookup_empty, ?lookup_insert_eq, ?lookup_delete_eq).
  all: try (split; [reflexivity|]; split; [by repeat constructor|]; by auto).
  unfold plans_with. cbn.
  destruct (filter (fun p => Plan.plan_id p = n) (workout_plan d)); cbn.
  all: split; [reflexivity|]; split; [|reflexivity].
  all: unfold quiescent; cbn; by rewrite !delete_insert_eq, delete_empty.
Qed.

(** C2.  The deletion is not all or nothing when the pool serves its calls
    on two clients: [BEGIN] opens a transaction on client 0, the exercises
    are deleted on client 1 and committed at once, the deletion of the plan
    fails, and the [ROLLBACK] on client 0 undoes nothing.  The exercises of
    plan 1 are gone and plan 1 is still there. *)
Theorem delete_workout_plan_partial_delete :
  exercises_of 1 Sample.tables = [Sample.bench; Sample.dips] /\
  plans_with 1 Sample.tables = [Sample.push_day] /\
  exercises_of 1 (committed (state (final Sample.deleted_with_fault))) = [] /\
  plans_with 1 (committed (state (final Sample.deleted_with_fault))) =
    [Sample.push_day] /\
  quiescent (state (final Sample.deleted_with_fault)).
Proof. vm_compute. repeat split; reflexivity. Qed.

(** With no call failing either: [BEGIN] and the deletion of the plan on
    client 0, the deletion of the exercises and [COMMIT] on client 1.  The
    handler reports the plan deleted; the exercises are gone, the plan row
    is still in the committed table and its deletion sits in the
    transaction left open on client 0. *)
Lemma delete_workout_plan_reported_deleted :
  responses (trace Sample.deleted_crosswise) =
    [(200, Json (JObj [("success", JVal (VBool true));
                       ("message", JVal (VString (deleted_message "1")))]))] /\
  exercises_of 1 (committed (state (final Sample.deleted_crosswise))) = [] /\
  plans_with 1 (committed (state (final Sample.deleted_crosswise))) =
    [Sample.push_day] /\
  sessions (state (final Sample.deleted_crosswise)) !! 0%nat =
    Some (InTransaction [DelPlan 1]).
Proof. vm_compute. repeat split; reflexivity. Qed.

(** C3.  On the same run the handler does what it does on an error: it
    issues [ROLLBACK] and responds 500; but the store is not what it was
    before the request, the exercises of plan 1 have been deleted. *)
Theorem delete_workout_plan_error_changes_store :
  statements (trace Sample.deleted_with_fault) =
    [Begin; DeleteExercises (VString "1"); DeleteWorkoutPlan (VString "1");
     Rollback] /\
  responses (trace Sample.deleted_with_fault) =
    [(500, Json (failure "Internal Server Error"))] /\
  committed (state (final Sample.deleted_with_fault)) <> Sample.tables /\
  committed (state (final Sample.deleted_with_fault)) =
    Db [Sample.alice] [Sample.push_day; Sample.pull_day] [].
Proof. vm_compute. repeat split; try reflexivity. discriminate. Qed.

(** When the [ROLLBACK] of the [catch] is rejected too, the handler sends no
    response at all: its promise rejects. *)
Lemma delete_workout_plan_rollback_rejected :
  responses (trace Sample.deleted_connection_lost) = [] /\
  ending Sample.deleted_connection_lost = Rejected (PgError ConnectionFailure) /\
  committed (state (final Sample.deleted_connection_lost)) = Sample.tables.
Proof. vm_compute. repeat split; reflexivity. Qed.

(** C9.  The two deletions are issued in order, but not on one client: here
    the exercises are deleted on client 1, outside the transaction that
    [BEGIN] opened on client 0, and the plan on client 0.  The handler
    responds 200 all the same. *)
Theorem delete_workout_plan_statements_on_two_clients :
  journal (final Sample.deleted_across_clients) =
    [(0%nat, Begin); (1%nat, DeleteExercises (VString "1"));
     (0%nat, DeleteWorkoutPlan (VString "1")); (0%nat, Commit)] /\
  responses (trace Sample.deleted_across_clients) =
    [(200, Json (JObj [("success", JVal (VBool true));
                       ("message", JVal (VString (deleted_message "1")))]))].
Proof. vm_compute. split; reflexivity. Qed.

(** * Further properties of the handlers *)

Import Routes.

Section EveryEnvironment.
Context {S : Type} `{Env S}.

(** X1.  Six of the eight routes answer every request exactly once: whatever
    the pool and the hasher answer, the handler's promise resolves and one
    response has been sent. *)
Theorem handlers_respond_once (req_body : object) (id : string) (s : S) :
  Forall (fun p => ending (run p s) = Returned tt /\
                   length (responses (trace (run p s))) = 1%nat)
         (answering req_body id).
Proof.
  unfold answering. repeat first [apply Forall_nil_2 | apply Forall_cons_2].
  - split; reflexivity.
  - unfold login. cbn.
    destruct (env_query _ s) as [[?|[|u us]] s1]; cbn; try (split; reflexivity).
    destruct (env_compare _ _ s1) as [[?|[|]] ?]; cbn; split; reflexivity.
  - unfold create_workout_plan. cbn.
    destruct (env_query _ s) as [[?|?] ?]; cbn; split; reflexivity.
  - unfold list_workout_plans. cbn.
    destruct (env_query _ s) as [[?|?] ?]; cbn; split; reflexivity.
  - unfold create_exercise. cbn.
    destruct (env_query _ s) as [[?|?] ?]; cbn; split; reflexivity.
  - unfold list_exercises. cbn.
    destruct (env_query _ s) as [[?|?] ?]; cbn; split; reflexivity.
Qed.

(** X2.  The other two routes, registration and plan deletion, never send
    two responses: either the promise resolves and one response has been
    sent, or it rejects and none has.  Registration rejects only on the
    hashing call, deletion only on the [ROLLBACK] of its [catch]. *)
Theorem register_and_delete_respond_at_most_once (req_body : object)
    (planId : string) (s : S) :
  (ending (run (register req_body) s) = Returned tt /\
   length (responses (trace (run (register req_body) s))) = 1%nat \/
   (exists e, ending (run (register req_body) s) = Rejected e /\
              (env_hash (get "password" req_body) 10 s).1 = inl e) /\
   responses (trace (run (register req_body) s)) = []) /\
  (ending (run (delete_workout_plan planId) s) = Returned tt /\
   length (responses (trace (run (delete_workout_plan planId) s))) = 1%nat \/
   (exists e, ending (run (delete_workout_plan planId) s) = Rejected e /\
              EvQuery Rollback (inl e) ∈ trace (run (delete_workout_plan planId) s)) /\
   responses (trace (run (delete_workout_plan planId) s)) = []).
Proof.
  split.
  - unfold register. cbn.
    destruct (env_hash _ _ s) as [[e|hashed] s1]; cbn; [right; eauto|].
    destruct (env_query _ s1) as [[?|?] ?]; cbn; left; split; reflexivity.
  - unfold delete_workout_plan. cbn.
    destruct (env_query Begin s) as [[e1|r1] s1]; cbn.
    { destruct (env_query Rollback s1) as [[e|?] ?]; cbn;
        [right; split; [exists e; split; [done | by repeat constructor]|done]
        |left; split; reflexivity]. }
    destruct (env_query _ s1) as [[e2|r2] s2]; cbn.
    { destruct (env_query Rollback s2) as [[e|?] ?]; cbn;
        [right; split; [exists e; split; [done | by repeat constructor]|done]
        |left; split; reflexivity]. }
    destruct (env_query _ s2) as [[e3|r3] s3]; cbn.
    { destruct (env_query Rollback s3) as [[e|?] ?]; cbn;
        [right; split; [exists e; split; [done | by repeat constructor]|done]
        |left; split; reflexivity]. }
    destruct (env_query _ s3) as [[e4|r4] s4]; cbn.
    { destruct (env_query Rollback s4) as [[e|?] ?]; cbn;
        [right; split; [exists e; split; [done | by repeat constructor]|done]
        |left; split; reflexivity]. }
    destruct r3; cbn; left; split; reflexivity.
Qed.

(** X3.  In each of the five routes with one statement in a [try], a
    rejected statement is logged and answered with 500 and [{success: false,
    message: "Internal Server Error"}]: the run is the same whatever the
    error is, and the handler's promise resolves. *)
Theorem store_errors_collapse (req_body : object) (id : string) (s s' : S)
    (p : prog unit) (q : stmt) (e : exn) :
  (p, q) ∈ guarded req_body id ->
  env_query q s = (inl e, s') ->
  run p s =
    Result [EvQuery q (inl e); EvLog e;
            EvSend 500 (Json (failure "Internal Server Error"))]
           (Returned tt) s'.
Proof.
  intros Hin E. unfold guarded in Hin.
  repeat (apply elem_of_cons in Hin as [[= -> ->]|Hin];
          [cbn; rewrite E; reflexivity|]).
  by apply elem_of_nil in Hin.
Qed.

(** X4.  The deletion reports an outcome other than 500 only after [COMMIT]
    has resolved: a run that sent 200 or 404 is the four statements, each
    resolved, followed by that response, with no [ROLLBACK]; and it sent 404
    exactly when the deletion of the plan returned no row. *)
Theorem delete_success_only_after_commit (planId : string) (s : S)
    (status : Z) (b : body) :
  (status, b) ∈ responses (trace (run (delete_workout_plan planId) s)) ->
  status <> 500 ->
  exists r1 r2 deleted r4,
    trace (run (delete_workout_plan planId) s) =
      [EvQuery Begin (inr r1);
       EvQuery (DeleteExercises (VString planId)) (inr r2);
       EvQuery (DeleteWorkoutPlan (VString planId)) (inr deleted);
       EvQuery Commit (inr r4);
       EvSend status b] /\
    status = (if decide (deleted = []) then 404 else 200).
Proof.
  unfold delete_workout_plan. cbn.
  destruct (env_query Begin s) as [[e1|r1] s1]; cbn.
  { destruct (env_query Rollback s1) as [[e|?] ?]; cbn; intros Hin Hs;
      [by apply elem_of_nil in Hin|].
    apply list_elem_of_singleton in Hin. by injection Hin as -> _. }
  destruct (env_query _ s1) as [[e2|r2] s2]; cbn.
  { destruct (env_query Rollback s2) as [[e|?] ?]; cbn; intros Hin Hs;
      [by apply elem_of_nil in Hin|].
    apply list_elem_of_singleton in Hin. by injection Hin as -> _. }
  destruct (env_query _ s2) as [[e3|r3] s3]; cbn.
  { destruct (env_query Rollback s3) as [[e|?] ?]; cbn; intros Hin Hs;
      [by apply elem_of_nil in Hin|].
    apply list_elem_of_singleton in Hin. by injection Hin as -> _. }
  destruct (env_query _ s3) as [[e4|r4] s4]; cbn.
  { destruct (env_query Rollback s4) as [[e|?] ?]; cbn; intros Hin Hs;
      [by apply elem_of_nil in Hin|].
    apply list_elem_of_singleton in Hin. by injection Hin as -> _. }
  destruct r3 as [|row rows]; cbn; intros Hin Hs;
    apply list_elem_of_singleton in Hin; injection Hin as -> ->;
    do 4 eexists; (split; [reflexivity|]); reflexivity.
Qed.

End EveryEnvironment.

(** ** What a handler can issue *)

Lemma issues_only_bind {A B : Type} (Q : stmt -> Prop) (p : prog A)
    (f : A -> prog B) :
  issues_only Q p -> (forall a, issues_only Q (f a)) -> issues_only Q (bind p f).
Proof. intros Hp Hf. induction Hp; cbn; try constructor; auto. Qed.

Lemma issues_only_try_catch {A : Type} (Q : stmt -> Prop) (p : prog A)
    (h : exn -> prog A) :
  issues_only Q p -> (forall e, issues_only Q (h e)) ->
  issues_only Q (try_catch p h).
Proof. intros Hp Hh. induction Hp; cbn; try constructor; auto. Qed.

Lemma issues_only_settle {A R : Type} (Q : stmt -> Prop) (k : R -> prog A)
    (r : exn + R) :
  (forall x, issues_only Q (k x)) -> issues_only Q (settle k r).
Proof. intros Hk. destruct r; cbn; [constructor | apply Hk]. Qed.

Ltac issues :=
  repeat first
    [ apply issues_only_try_catch | apply issues_only_bind
    | apply issues_only_settle | apply only_query | apply only_hash
    | apply only_compare | apply only_send | apply only_log | apply only_ret
    | apply only_throw | intro | progress cbn
    | match goal with |- issues_only _ (match ?x with _ => _ end) => destruct x end ].

(** The reading routes can issue [SELECT] statements only. *)
Lemma reading_issue_select (req_body : object) (id : string) :
  Forall (issues_only (fun q => is_select q = true)) (reading req_body id).
Proof.
  unfold reading. repeat first [apply Forall_nil_2 | apply Forall_cons_2];
    unfold root, login, list_workout_plans, list_exercises,
      pool_query, bcrypt_compare, res_json, res_send, console_error; issues;
    reflexivity.
Qed.

Section Invariants.
Context {S : Type} `{Env S}.

(** A property of the environment that every call of a program keeps holds
    when the program has run. *)
Lemma run_invariant (I : S -> Prop) (Q : stmt -> Prop) {A : Type}
    (p : prog A) (s : S) :
  (forall q s, Q q -> I s -> I (env_query q s).2) ->
  (forall d n s, I s -> I (env_hash d n s).2) ->
  (forall d h s, I s -> I (env_compare d h s).2) ->
  issues_only Q p -> I s -> I (final (run p s)).
Proof.
  intros Hq Hh Hc Hp. revert s.
  induction Hp as [a|e|q k HQ _ IH|d n k _ IH|d h k _ IH|status b k _ IH|e k _ IH];
    intros s Hs; cbn; auto.
  - specialize (Hq q s HQ Hs). destruct (env_query q s) as [r s']. cbn. by apply IH.
  - specialize (Hh d n s Hs). destruct (env_hash d n s) as [r s']. cbn. by apply IH.
  - specialize (Hc d h s Hs). destruct (env_compare d h s) as [r s']. cbn. by apply IH.
Qed.

(** The statements of a run are among those the program can issue. *)
Lemma run_statements (Q : stmt -> Prop) {A : Type} (p : prog A) (s : S) :
  issues_only Q p -> Forall Q (statements (trace (run p s))).
Proof.
  intros Hp. revert s. induction Hp; intros s0; cbn; auto.
  - destruct (env_query q s0) as [r s']. cbn. constructor; auto.
  - destruct (env_hash d n s0) as [r s']. cbn. auto.
  - destruct (env_compare d h s0) as [r s']. cbn. auto.
Qed.

End Invariants.

(** X5.  The routes that only read issue nothing but [SELECT] statements,
    whatever the pool and the hasher answer: no [INSERT], no [DELETE] and no
    transaction control. *)
Theorem reading_routes_only_select {S : Type} `{Env S} (req_body : object)
    (id : string) (s : S) :
  Forall (fun p => Forall (fun q => is_select q = true)
                          (statements (trace (run p s))))
         (reading req_body id).
Proof.
  eapply Forall_impl; [apply reading_issue_select|].
  intros p Hp. by apply run_statements.
Qed.

(** ** The tables under the pool *)

Lemma abort_tables (c : nat) (st : store) :
  committed (abort c st) = committed st /\
  generators (abort c st) = generators st.
Proof. unfold abort. by destruct (sessions st !! c). Qed.

(** A [SELECT] through the pool leaves the committed tables and the
    sequences alone, on whatever client and failed or not. *)
Lemma pool_exec_select_tables (q : stmt) (m : machine) :
  is_select q = true ->
  committed (state (pool_exec q m).2) = committed (state m) /\
  generators (state (pool_exec q m).2) = generators (state m).
Proof.
  intros Hq. unfold pool_exec. destruct (next_call m) as [c [e|]]; cbn.
  - apply abort_tables.
  - assert (Hst : committed (exec_on c q (state m)).2 = committed (state m) /\
                  generators (exec_on c q (state m)).2 = generators (state m)).
    { unfold exec_on.
      destruct (sessions (state m) !! c) as [[ws|]|] eqn:E, q;
        try discriminate Hq; cbn; try done.
      all: unfold lookup_user.
      all: repeat match goal with
             | |- context [int_param ?v] => destruct (int_param v) as [?|[?|]]
             end; cbn; try done.
      all: unfold abort; cbn; rewrite ?E; done. }
    destruct (exec_on c q (state m)). exact Hst.
Qed.

(** X6.  The reading routes leave the committed tables and the sequences of
    generated ids as they were, on whatever clients the pool serves them and
    whichever calls fail. *)
Theorem reading_routes_leave_tables (h : hasher) (m : machine)
    (req_body : object) (id : string) :
  Forall (fun p => committed (state (final (serve h p m))) = committed (state m) /\
                   generators (state (final (serve h p m))) = generators (state m))
         (reading req_body id).
Proof.
  eapply Forall_impl; [apply reading_issue_select|].
  intros p Hp. unfold serve.
  apply (run_invariant (H := pg_env h)
           (fun m' => committed (state m') = committed (state m) /\
                      generators (state m') = generators (state m))
           (fun q => is_select q = true)); try done.
  - intros q m' Hq [Hc Hg]. cbn [env_query pg_env].
    destruct (pool_exec_select_tables q m' Hq) as [-> ->]. done.
  - intros d n m' Hm. cbn [env_hash pg_env]. unfold hash_exec.
    by destruct (hash_call _ _ _ _).
Qed.

(** A statement through the pool either leaves the committed tables alone or
    applies to them the one write of the statement. *)
Lemma pool_exec_write_tables (q : stmt) (m : machine) :
  is_control q = false ->
  committed (state (pool_exec q m).2) = committed (state m) \/
  exists c rows w g,
    on_tables (columns (state m)) q (view (state m) c) (generators (state m)) =
      (inr (rows, Some w), g) /\
    committed (state (pool_exec q m).2) = apply w (committed (state m)).
Proof.
  intros Hq. unfold pool_exec. destruct (next_call m) as [c [e|]]; cbn.
  - left. apply abort_tables.
  - destruct (exec_on c q (state m)) as [r st'] eqn:E. cbn.
    assert (sessions (state m) !! c = Some Aborted \/
            sessions (state m) !! c <> Some Aborted) as [Hs|Hs]
      by (destruct (sessions (state m) !! c) as [[ws|]|]; auto).
    + unfold exec_on in E. rewrite Hs in E.
      destruct q; try discriminate Hq; injection E as <- <-; by left.
    + rewrite exec_on_tables in E by done.
      destruct (on_tables _ q _ _) as [[e|[rows w]] g] eqn:Et.
      * injection E as <- <-. left. cbn [snd state].
        exact (proj1 (abort_tables c _)).
      * injection E as <- <-. unfold perform.
        destruct w as [w|]; [|by left].
        destruct (sessions (state m) !! c) as [[ws|]|]; try (by left).
        right. by exists c, rows, w, g.
Qed.

(** X7.  Each of the three creating routes touches its own table only, and
    adds one row at most, at the end: registration leaves the plans and the
    exercises, plan creation the users and the exercises, exercise creation
    the users and the plans, on whatever client and failed or not; and an
    exercise that is added belongs to the plan of the route. *)
Theorem creating_routes_touch_one_table (h : hasher) (m : machine)
    (req_body : object) (planId : string) :
  let d := committed (state m) in
  let after (p : prog unit) := committed (state (final (serve h p m))) in
  (workout_plan (after (register req_body)) = workout_plan d /\
   exercise (after (register req_body)) = exercise d /\
   (users (after (register req_body)) = users d \/
    exists u, users (after (register req_body)) = (users d ++ [u])%list)) /\
  (users (after (create_workout_plan req_body)) = users d /\
   exercise (after (create_workout_plan req_body)) = exercise d /\
   (workout_plan (after (create_workout_plan req_body)) = workout_plan d \/
    exists p, workout_plan (after (create_workout_plan req_body)) =
              (workout_plan d ++ [p])%list)) /\
  (users (after (create_exercise planId req_body)) = users d /\
   workout_plan (after (create_exercise planId req_body)) = workout_plan d /\
   (exercise (after (create_exercise planId req_body)) = exercise d \/
    exists e, exercise (after (create_exercise planId req_body)) =
              (exercise d ++ [e])%list /\
              int_of_text planId = Some (Exercise.plan_id e))).
Proof.
  intros d after. subst d after. cbn zeta. unfold serve. repeat split.
  all: unfold register, create_workout_plan, create_exercise; cbn.
  all: try (unfold hash_exec; destruct (hash_call _ _ _ _) as [e|hashed]; cbn;
            [first [reflexivity | by left]|]).
  all: match goal with
       | |- context [pool_exec ?q ?m'] =>
           pose proof (pool_exec_write_tables q m' eq_refl) as Hw;
           destruct (pool_exec q m') as [r m2]
       end; cbn in Hw.
  all: destruct r as [e|rows]; cbn.
  all: destruct Hw as [->|(c & rows' & w & g & Ht & ->)]; try first [reflexivity | by left].
  all: cbn in Ht.
  all: repeat match type of Ht with
         | context [text_param ?v] => destruct (text_param v)
         | context [int_param ?v] => destruct (int_param v) as [?|[?|]] eqn:?
         | context [read ?t ?v] => destruct (read t v)
         | context [known_user ?a ?b] => destruct (known_user a b)
         | context [decide ?P] => destruct (decide P)
         end; try discriminate Ht.
  all: injection Ht as <- <- <-; cbn; try reflexivity.
  all: right; eexists; first [reflexivity | split; [reflexivity|]].
  all: cbn; unfold int_of_text;
    match goal with
    | E : int_param _ = _ |- _ =>
        unfold int_param in E; destruct (int4in planId); by inversion_clear E
    end.
Qed.

(** ** What the deletion leaves alone *)

Lemma filter_other {A : Type} (key : A -> Z) (n n' : Z) (l : list A) :
  n' <> n ->
  filter (fun x => key x = n') (filter (fun x => key x ≠ n) l) =
  filter (fun x => key x = n') l.
Proof.
  intros Hn. induction l as [|x l IH]; [done|].
  rewrite (filter_cons (fun x => key x ≠ n)).
  destruct (decide (key x ≠ n)) as [Hx|Hx].
  - rewrite !filter_cons, IH. done.
  - rewrite filter_cons, decide_False, IH; [done|].
    intros E. apply Hx. congruence.
Qed.

Lemma but_for_apply (n : Z) (d0 d : db) (w : write) :
  deleting n w -> but_for n d0 d -> but_for n d0 (apply w d).
Proof.
  unfold but_for. intros [-> | ->] [Hu Hn]; (split; [exact Hu|]); intros n' Hn';
    destruct (Hn n' Hn') as [Hp He]; unfold plans_with, exercises_of in *; cbn;
    rewrite ?(filter_other Exercise.plan_id), ?(filter_other Plan.plan_id) by done;
    done.
Qed.

Lemma but_for_apply_all (n : Z) (d0 d : db) (ws : list write) :
  Forall (deleting n) ws -> but_for n d0 d -> but_for n d0 (apply_all ws d).
Proof.
  intros Hws. revert d. induction Hws as [|w ws Hw _ IH]; intros d Hd; [done|].
  cbn. apply IH. by apply but_for_apply.
Qed.

Lemma abort_pending (n : Z) (c : nat) (st : store) :
  pending_only n st -> pending_only n (abort c st).
Proof.
  intros Hst. unfold abort. destruct (sessions st !! c) eqn:E; [|done].
  intros c' s'. cbn. rewrite lookup_insert.
  destruct (decide (c = c')); [by intros [= <-] | apply Hst].
Qed.

(** One statement of the deletion, on any client: the sessions hold
    deletions for the plan only, and the tables differ from those at the
    start in that plan and its exercises only. *)
Lemma exec_on_deletion (planId : string) (n : Z) (d0 : db) (c : nat)
    (q : stmt) (st : store) :
  int_of_text planId = Some n ->
  of_deletion planId q ->
  pending_only n st -> but_for n d0 (committed st) ->
  pending_only n (exec_on c q st).2 /\
  but_for n d0 (committed (exec_on c q st).2).
Proof.
  intros Hn Hq Hst Hd.
  pose proof (int_param_of_text _ _ Hn) as Hi.
  assert (Hins : forall ws, Forall (deleting n) ws ->
            pending_only n
              (Store (committed st) (<[c:=InTransaction ws]> (sessions st))
                     (generators st) (columns st))).
  { intros ws Hws c' s'. cbn. rewrite lookup_insert.
    destruct (decide (c = c')); [by intros [= <-] | apply Hst]. }
  assert (Hdel : forall d, pending_only n
            (Store d (delete c (sessions st)) (generators st) (columns st))).
  { intros d c' s'. cbn. rewrite lookup_delete.
    destruct (decide (c = c')); [done | apply Hst]. }
  assert (Hsame : forall d, pending_only n
            (Store d (sessions st) (generators st) (columns st))).
  { intros d c' s'. cbn. apply Hst. }
  assert (Hc : forall s, sessions st !! c = Some s -> holds_only n s)
    by (intros s; apply Hst).
  destruct Hq as [Hq | ->]; [unfold deletion_statements in Hq;
    repeat (apply elem_of_cons in Hq as [->|Hq]); [..|by apply elem_of_nil in Hq]|].
  all: unfold exec_on; cbn; rewrite ?Hi.
  all: destruct (sessions st !! c) as [[ws|]|] eqn:E; cbn;
    try (specialize (Hc _ eq_refl); cbn in Hc).
  all: unfold perform, view; rewrite ?E; cbn.
  all: try (split; [first [exact Hst | apply Hdel | apply Hsame]
                   | first [exact Hd | by apply but_for_apply_all]]).
  all: try (split; [apply Hins | exact Hd]).
  all: try (by constructor).
  all: try (apply Forall_app; split; [done|]; repeat constructor; by (left + right)).
  - split; [apply Hsame|].
    exact (but_for_apply n d0 _ (DelExercises n) (or_introl eq_refl) Hd).
  - split; [apply Hsame|].
    exact (but_for_apply n d0 _ (DelPlan n) (or_intror eq_refl) Hd).
Qed.

Lemma deletion_issues (planId : string) :
  issues_only (of_deletion planId) (delete_workout_plan planId).
Proof.
  unfold delete_workout_plan, pool_query, res_json, console_error. issues.
  all: first [by right | left; unfold deletion_statements; by repeat constructor].
Qed.

(** X8.  Deleting a plan, from a store with no transaction open, touches
    that plan and its exercises only: the users, every other plan and the
    exercises of every other plan are in the committed tables as they were,
    on whatever clients the pool serves the calls and whichever calls fail. *)
Theorem deletion_touches_one_plan (h : hasher) (m : machine)
    (planId : string) (n : Z) :
  int_of_text planId = Some n ->
  quiescent (state m) ->
  users (committed (state (final (serve h (delete_workout_plan planId) m)))) =
    users (committed (state m)) /\
  forall n' : Z, n' <> n ->
    plans_with n'
      (committed (state (final (serve h (delete_workout_plan planId) m)))) =
      plans_with n' (committed (state m)) /\
    exercises_of n'
      (committed (state (final (serve h (delete_workout_plan planId) m)))) =
      exercises_of n' (committed (state m)).
Proof.
  intros Hn Hq.
  enough (pending_only n (state (final (serve h (delete_workout_plan planId) m))) /\
          but_for n (committed (state m))
            (committed (state (final (serve h (delete_workout_plan planId) m)))))
    as [_ Hd] by exact Hd.
  unfold serve.
  apply (run_invariant (H := pg_env h)
           (fun m' => pending_only n (state m') /\
                      but_for n (committed (state m)) (committed (state m')))
           (of_deletion planId)).
  - intros q m' HQ [Hp Hd]. cbn [env_query pg_env]. unfold pool_exec.
    destruct (next_call m') as [c [e|]]; cbn.
    + split; [by apply abort_pending|]. by destruct (abort_tables c (state m')) as [-> _].
    + pose proof (exec_on_deletion planId n (committed (state m)) c q (state m')
                    Hn HQ Hp Hd) as Hstep.
      by destruct (exec_on c q (state m')).
  - intros d k m' Hm. cbn [env_hash pg_env]. unfold hash_exec.
    by destruct (hash_call _ _ _ _).
  - done.
  - apply deletion_issues.
  - split; [|done]. intros c s. rewrite Hq, lookup_empty. done.
Qed.

(** ** Logging in *)

(** X9.  A login whose password is missing or is not a string, when the
    store answers the lookup: 404 with [User not found] when no user has the
    username, the password never being looked at; 500 with [Internal Server
    Error] when a user has it, since [bcrypt.compare] rejects inside the
    [try].  The handler's promise resolves in both cases. *)
Theorem login_without_password (h : hasher) (m : machine) (req_body : object)
    (c : nat) :
  (forall s, get "password" req_body <> VString s) ->
  next_call m = (c, None) ->
  sessions (state m) !! c ≠ Some Aborted ->
  ending (serve h (login req_body) m) = Returned tt /\
  responses (trace (serve h (login req_body) m)) =
    match lookup_user (get "username" req_body) (view (state m) c) with
    | [] => [(404, Json (failure "User not found"))]
    | _ :: _ => [(500, Json (failure "Internal Server Error"))]
    end.
Proof.
  intros Hpw Hc Hs. unfold serve, login. cbn.
  rewrite (pool_exec_ok _ _ _ Hc), exec_on_tables by done. cbn.
  destruct (lookup_user _ _) as [|u us]; cbn; [done|].
  destruct (get "password" req_body) as [| | | |s]; cbn; try done.
  by destruct (Hpw s).
Qed.

(** ** Creating and then reading *)

(** X10.  Creating a plan and then listing the plans of its user, on a
    store with no transaction open, when the two calls are not failed and
    the store accepts the insertion: the user is there; the creation
    responds 201 with the new row, in which the name and the description
    are those submitted as the store read them at the types of their
    columns, hence as submitted when they were submitted at those types; and
    the listing responds 200 with the plans that the user had before and the
    new plan, each once, in the order in which the store returns them. *)
Theorem create_plan_then_list (h : hasher) (m m1 : machine) (req_body : object)
    (user_id : string) (n : Z) (c1 c2 : nat)
    (rest : list (nat * option sqlerr)) (rows : list object) :
  int_param (get "user_id" req_body) = inr (Some n) ->
  int_of_text user_id = Some n ->
  quiescent (state m) ->
  schedule m = (c1, None) :: (c2, None) :: rest ->
  pool_exec (InsertWorkoutPlan (get "user_id" req_body)
               (get "plan_name" req_body) (get "description" req_body)) m =
    (inr rows, m1) ->
  let r1 := serve h (create_workout_plan req_body) m in
  let r2 := serve h (list_workout_plans user_id) (final r1) in
  exists (created : Plan.t) (listed : list Plan.t),
    known_user (Some n) (committed (state m)) = true /\
    Plan.plan_id created = next_plan (generators (state m)) /\
    Plan.user_id created = Some n /\
    (forall k : string, k ∈ ["plan_name"; "description"] ->
       read (columns (state m) k) (get k req_body) =
         inr (get k (Plan.to_object created)) /\
       (kept (columns (state m) k) (get k req_body) ->
        get k (Plan.to_object created) = get k req_body)) /\
    responses (trace r1) = [(201, Json (JRow (Plan.to_object created)))] /\
    responses (trace r2) = [(200, Json (JRows (Plan.summary <$> listed)))] /\
    listed ≡ₚ plans_of n (committed (state m)) ++ [created].
Proof.
  intros Hu Hn Hq Hsched Hacc r1 r2.
  assert (Hs : forall c, sessions (state m) !! c = None).
  { intros c. rewrite Hq. apply lookup_empty. }
  assert (Hc1 : next_call m = (c1, None)) by (by apply next_call_cons in Hsched).
  pose proof Hacc as Hrun.
  rewrite (pool_exec_ok _ _ c1 Hc1) in Hacc.
  rewrite exec_on_tables in Hacc by (by rewrite ?Hs).
  rewrite quiescent_view in Hacc by done. cbn [on_tables] in Hacc.
  rewrite Hu in Hacc.
  destruct (read (columns (state m) "plan_name") (get "plan_name" req_body))
    as [?|name] eqn:R1;
    destruct (read (columns (state m) "description")
                   (get "description" req_body)) as [?|text] eqn:R2;
    try discriminate Hacc.
  destruct (known_user (Some n) (committed (state m))) eqn:Hknown;
    [|discriminate Hacc].
  cbn in Hacc. unfold perform in Hacc. rewrite Hs, Hsched in Hacc.
  injection Hacc as <- <-.
  set (created := Plan.Make (next_plan (generators (state m))) (Some n) name
                            text) in *.
  exists created, (arrange (next_order (final r1))
                     (plans_of n (committed (state m)) ++ [created])).
  assert (E1 : r1 = Result
            [EvQuery (InsertWorkoutPlan (get "user_id" req_body)
                        (get "plan_name" req_body) (get "description" req_body))
                     (inr [Plan.to_object created]);
             EvSend 201 (Json (JRow (Plan.to_object created)))]
            (Returned tt)
            (Machine (Store (apply (AddPlan created) (committed (state m)))
                            (sessions (state m))
                            (draw_plan (generators (state m)))
                            (columns (state m)))
                     ((c2, None) :: rest) (salts m)
                     (journal m ++ [(c1, InsertWorkoutPlan (get "user_id" req_body)
                        (get "plan_name" req_body) (get "description" req_body))])
                     (tail (orders m)))).
  { subst r1. unfold serve, create_workout_plan. cbn. rewrite Hrun. reflexivity. }
  split; [reflexivity|]. split; [reflexivity|]. split; [reflexivity|].
  split; [|split; [by rewrite E1|split; [|apply arrange_permutation]]].
  - intros k Hk.
    assert (Hread : read (columns (state m) k) (get k req_body) =
                    inr (get k (Plan.to_object created))).
    { repeat (apply elem_of_cons in Hk as [->|Hk]; [done|]).
      by apply elem_of_nil in Hk. }
    split; [exact Hread|]. intros Hkept.
    rewrite (read_kept _ _ Hkept) in Hread. by injection Hread.
  - subst r2. rewrite E1. unfold serve, list_workout_plans. cbn.
    rewrite exec_on_tables by (by cbn; rewrite ?Hs). cbn.
    rewrite (int_param_of_text _ _ Hn). cbn.
    unfold view. cbn. rewrite Hs. unfold scan. cbn [is_listing].
    rewrite arrange_fmap. unfold plans_of. cbn.
    rewrite filter_app, filter_cons, filter_nil, decide_True by done.
    reflexivity.
Qed.

(** X11.  Registering and then logging in with the same body, whose
    username and password are strings and whose username is free, on a
    store with no transaction open and with the two calls not failed: the
    registration responds 201 with the new row, and the login finds that row
    and responds 200 with it when the hasher verifies the password against
    the hash that was stored, 401 otherwise. *)
Theorem register_then_login (h : hasher) (m : machine) (req_body : object)
    (name pw : string) (c1 c2 : nat) (rest : list (nat * option sqlerr)) :
  get "username" req_body = VString name ->
  get "password" req_body = VString pw ->
  quiescent (state m) ->
  users_named name (committed (state m)) = [] ->
  schedule m = (c1, None) :: (c2, None) :: rest ->
  let u := User.Make (next_user (generators (state m))) name
                     (digest h 10 (next_salt m) pw) in
  let r1 := serve h (register req_body) m in
  let r2 := serve h (login req_body) (final r1) in
  responses (trace r1) = [(201, Json (JRow (User.to_object u)))] /\
  responses (trace r2) =
    (if verify h pw (digest h 10 (next_salt m) pw) then
       [(200, Json (JObj [("user", JRow (User.to_object u));
                          ("success", JVal (VBool true));
                          ("message", JVal (VString "Login successful"))]))]
     else [(401, Json (failure "Incorrect password"))]).
Proof.
  intros Hname Hpw Hq Hfree Hsched u r1 r2.
  assert (Hs : forall c, sessions (state m) !! c = None).
  { intros c. rewrite Hq. apply lookup_empty. }
  assert (E1 : r1 = Result
            [EvHash (VString pw) 10 (inr (User.password u));
             EvQuery (InsertUser (VString name) (VString (User.password u)))
                     (inr [User.to_object u]);
             EvSend 201 (Json (JRow (User.to_object u)))]
            (Returned tt)
            (Machine (Store (apply (AddUser u) (committed (state m)))
                            (sessions (state m))
                            (draw_user (generators (state m)))
                            (columns (state m)))
                     ((c2, None) :: rest) (tail (salts m))
                     (journal m ++ [(c1, InsertUser (VString name)
                                           (VString (User.password u)))])
                     (tail (orders m)))).
  { subst r1. unfold serve, register. rewrite Hname, Hpw. cbn.
    rewrite (pool_exec_ok _ _ c1) by (by cbn; apply next_call_cons in Hsched).
    rewrite exec_on_tables by (by cbn; rewrite ?Hs).
    cbn [on_tables state text_param generators].
    rewrite quiescent_view by done. rewrite decide_True by done. cbn.
    unfold perform. cbn. rewrite Hs, Hsched. reflexivity. }
  split; [by rewrite E1|].
  subst r2. rewrite E1. unfold serve, login. rewrite Hname, Hpw. cbn.
  rewrite exec_on_tables by (by cbn; rewrite ?Hs). cbn.
  unfold lookup_user, view. cbn. rewrite Hs. unfold users_named in *. cbn.
  rewrite filter_app, Hfree, filter_cons, filter_nil, decide_True by done. cbn.
  destruct (verify h pw _); reflexivity.
Qed.

(** ** Deleting on one client *)

Lemma filter_out_nothing_left {A : Type} (key : A -> Z) (n : Z) (l : list A) :
  filter (fun x => key x = n) (filter (fun x => key x ≠ n) l) = [].
Proof.
  induction l as [|x l IH]; [done|].
  rewrite (filter_cons (fun x => key x ≠ n)).
  destruct (decide (key x ≠ n)); [|done].
  by rewrite filter_cons, decide_False, IH.
Qed.

(** X12.  When one client serves every call of the deletion, from a store
    with no transaction open, the deletion is all or nothing and the
    response tells which: either the handler answers 500, or nothing when
    its [ROLLBACK] is rejected too, and the committed tables are what they
    were; or it answers 200, or 404 when there was no such plan, the plan and
    all its exercises are out of the committed tables and no transaction is
    left open. *)
Theorem deletion_all_or_nothing (h : hasher) (m : machine) (planId : string)
    (n : Z) (c : nat) (f1 f2 f3 f4 f5 : option sqlerr)
    (rest : list (nat * option sqlerr)) :
  int_of_text planId = Some n ->
  quiescent (state m) ->
  schedule m = (c, f1) :: (c, f2) :: (c, f3) :: (c, f4) :: (c, f5) :: rest ->
  let r := serve h (delete_workout_plan planId) m in
  let d := committed (state m) in
  let d' := committed (state (final r)) in
  (d' = d /\
   (responses (trace r) = [(500, Json (failure "Internal Server Error"))] \/
    responses (trace r) = [])) \/
  (exercises_of n d' = [] /\ plans_with n d' = [] /\
   quiescent (state (final r)) /\
   responses (trace r) =
     [if decide (plans_with n d = []) then
        (404, Json (failure "Workout plan not found."))
      else
        (200, Json (JObj [("success", JVal (VBool true));
                          ("message", JVal (VString (deleted_message planId)))]))]).
Proof.
  intros Hn Hq Hsched r d d'.
  pose proof (deletion_on_one_client h m planId n c f1 f2 f3 f4 f5 rest
                Hn Hq Hsched) as Hone.
  cbn zeta in Hone. fold r d in Hone. fold d' in Hone.
  destruct f1, f2, f3, f4; try (left; destruct Hone as (? & _ & ?); by split).
  right. destruct Hone as (Hd & Hquiet & Hresp). rewrite Hd.
  split; [apply (filter_out_nothing_left Exercise.plan_id)|].
  split; [apply (filter_out_nothing_left Plan.plan_id)|].
  split; [exact Hquiet|]. rewrite Hresp.
  destruct (plans_with n d); [by rewrite decide_True | by rewrite decide_False].
Qed.

(** X13.  From a store with no transaction open and for a plan id that the
    store reads as an integer: after a deletion that one client served with
    no call failed, no exercise of the plan can be read any more.  Listing
    the exercises of the plan, the call not failed, answers 200 with the
    empty sequence, on whatever client. *)
Theorem delete_then_list_exercises (h : hasher) (m : machine)
    (planId : string) (n : Z) (c c' : nat) (rest : list (nat * option sqlerr)) :
  int_of_text planId = Some n ->
  quiescent (state m) ->
  schedule m =
    (c, None) :: (c, None) :: (c, None) :: (c, None) :: (c', None) :: rest ->
  let r1 := serve h (delete_workout_plan planId) m in
  let r2 := serve h (list_exercises planId) (final r1) in
  responses (trace r2) = [(200, Json (JRows []))] /\
  ending r2 = Returned tt.
Proof.
  intros Hn Hq Hsched r1 r2. subst r1 r2.
  pose proof (int_param_of_text _ _ Hn) as Hi.
  destruct m as [[d s g ty] sch sl j os]. unfold quiescent in Hq.
  cbn in Hq, Hsched. subst s sch. unfold serve, delete_workout_plan.
  repeat (cbn; unfold exec_on, abort, perform, view; cbn;
          rewrite ?Hi, ?lookup_empty, ?lookup_insert_eq, ?lookup_delete_eq).
  rewrite !delete_insert_eq, delete_empty.
  destruct (filter (fun p => Plan.plan_id p = n) (workout_plan d)); cbn.
  all: unfold exec_on; cbn; rewrite ?Hi, lookup_empty; cbn; rewrite ?Hi; cbn.
  all: unfold view, exercises_of; cbn; rewrite lookup_empty; cbn.
  all: rewrite (filter_out_nothing_left Exercise.plan_id); cbn.
  all: unfold scan; cbn; by rewrite arrange_nil.
Qed.

(** X14.  Deleting a plan twice, from a store with no transaction open and
    for a plan id that the store reads as an integer: after a deletion that
    one client served with no call failed, deleting the same plan again, on
    whatever clients and with no call failed, answers 404 with [Workout plan
    not found.] and leaves the committed tables as the first deletion left
    them.  The first deletion answered 200 when the plan was there. *)
Theorem delete_twice (h : hasher) (m : machine) (planId : string) (n : Z)
    (c c1 c2 c3 c4 : nat) (rest : list (nat * option sqlerr)) :
  int_of_text planId = Some n ->
  quiescent (state m) ->
  schedule m =
    (c, None) :: (c, None) :: (c, None) :: (c, None) ::
    (c1, None) :: (c2, None) :: (c3, None) :: (c4, None) :: rest ->
  let r1 := serve h (delete_workout_plan planId) m in
  let r2 := serve h (delete_workout_plan planId) (final r1) in
  responses (trace r2) = [(404, Json (failure "Workout plan not found."))] /\
  committed (state (final r2)) = committed (state (final r1)) /\
  (plans_with n (committed (state m)) <> [] ->
   responses (trace r1) =
     [(200, Json (JObj [("success", JVal (VBool true));
                        ("message", JVal (VString (deleted_message planId)))]))]).
Proof.
  intros Hn Hq Hsched r1 r2.
  assert (E1 : exists t,
            r1 = Result t (Returned tt)
                   (Machine (Store (apply (DelPlan n)
                                      (apply (DelExercises n) (committed (state m))))
                                   ∅ (generators (state m)) (columns (state m)))
                            ((c1, None) :: (c2, None) :: (c3, None) ::
                             (c4, None) :: rest)
                            (salts m)
                            ((((journal m ++ [(c, Begin)]) ++
                               [(c, DeleteExercises (VString planId))]) ++
                              [(c, DeleteWorkoutPlan (VString planId))]) ++
                             [(c, Commit)])
                            (tail (tail (tail (tail (orders m)))))) /\
            (plans_with n (committed (state m)) <> [] ->
             responses t =
               [(200, Json (JObj [("success", JVal (VBool true));
                                  ("message", JVal (VString (deleted_message planId)))]))])).
  { subst r1 r2. pose proof (int_param_of_text _ _ Hn) as Hi.
    destruct m as [[d s g ty] sch sl j os].
    unfold quiescent in Hq. cbn in Hq, Hsched. subst s sch.
    unfold serve, delete_workout_plan.
    repeat (cbn; unfold exec_on, abort, perform, view; cbn;
            rewrite ?Hi, ?lookup_empty, ?lookup_insert_eq, ?lookup_delete_eq).
    rewrite !delete_insert_eq, delete_empty. unfold plans_with. cbn.
    destruct (filter (fun p => Plan.plan_id p = n) (workout_plan d)); cbn;
      eexists; (split; [reflexivity|]); cbn; done. }
  destruct E1 as (t & E1 & H200). subst r2. rewrite E1. cbn [final trace].
  match goal with |- context [serve h _ ?m'] => set (m4 := m') end.
  assert (Hp4 : plans_with n (committed (state m4)) = [])
    by apply (filter_out_nothing_left Plan.plan_id).
  assert (He4 : exercises_of n (committed (state m4)) = [])
    by apply (filter_out_nothing_left Exercise.plan_id).
  assert (Ho4 : only_deleting n (state m4))
    by (intros c0 s0; cbn; by rewrite lookup_empty).
  destruct (deletion_of_absent_plan h m4 planId n c1 c2 c3 c4 rest
              Hn Hp4 He4 Ho4 eq_refl) as (st8 & Hrun & Hc & _).
  rewrite Hrun. cbn [trace final state responses]. split; [reflexivity|].
  split; [exact Hc | exact H200].
Qed.

(** X15.  The deletion of the plan is issued only after [BEGIN] and the
    deletion of its exercises have both resolved: in every run that issues
    it, whatever the environment answers, it is the third call, after these
    two. *)
Theorem plan_deleted_only_after_exercises {S : Type} `{Env S}
    (planId : string) (s : S) (r3 : exn + list object) :
  EvQuery (DeleteWorkoutPlan (VString planId)) r3
    ∈ trace (run (delete_workout_plan planId) s) ->
  exists r1 r2 rest,
    trace (run (delete_workout_plan planId) s) =
      EvQuery Begin (inr r1) ::
      EvQuery (DeleteExercises (VString planId)) (inr r2) ::
      EvQuery (DeleteWorkoutPlan (VString planId)) r3 :: rest.
Proof.
  unfold delete_workout_plan. cbn.
  destruct (env_query Begin s) as [[e1|r1] s1]; cbn.
  { destruct (env_query Rollback s1) as [[e|?] ?]; cbn; intros Hin;
      repeat (apply elem_of_cons in Hin as [Hin|Hin]; [discriminate|]);
      by apply elem_of_nil in Hin. }
  destruct (env_query _ s1) as [[e2|r2] s2]; cbn.
  { destruct (env_query Rollback s2) as [[e|?] ?]; cbn; intros Hin;
      repeat (apply elem_of_cons in Hin as [Hin|Hin]; [discriminate|]);
      by apply elem_of_nil in Hin. }
  destruct (env_query _ s2) as [r3' s3] eqn:E3. intros Hin.
  assert (r3 = r3') as ->.
  { cbn in Hin.
    apply elem_of_cons in Hin as [Hin|Hin]; [discriminate|].
    apply elem_of_cons in Hin as [Hin|Hin]; [discriminate|].
    apply elem_of_cons in Hin as [Hin|Hin]; [by injection Hin|].
    exfalso. destruct r3' as [e3|rows3]; cbn in Hin.
    - destruct (env_query Rollback s3) as [[e|?] ?]; cbn in Hin;
        repeat (apply elem_of_cons in Hin as [Hin|Hin]; [discriminate|]);
        by apply elem_of_nil in Hin.
    - destruct (env_query Commit s3) as [[e4|r4] s4]; cbn in Hin.
      + destruct (env_query Rollback s4) as [[e|?] ?]; cbn in Hin;
          repeat (apply elem_of_cons in Hin as [Hin|Hin]; [discriminate|]);
          by apply elem_of_nil in Hin.
      + destruct rows3; cbn in Hin;
          repeat (apply elem_of_cons in Hin as [Hin|Hin]; [discriminate|]);
          by apply elem_of_nil in Hin. }
  cbn. eauto.
Qed.

(** ** A transaction left open *)

(** X16.  No creating route commits.  When the pool serves an exercise
    creation on a client that has a transaction open, the plan is there for
    that session and the store can read the submitted fields at the types
    of their columns, the handler answers 201 with the new row, but the row
    is in the open transaction only: the committed tables are what they
    were, and a session with no transaction open does not see the row. *)
Theorem created_in_open_transaction_not_committed (h : hasher) (m : machine)
    (planId : string) (n : Z) (req_body : object) (c : nat) (ws : list write)
    (name count times text : value) :
  int_of_text planId = Some n ->
  next_call m = (c, None) ->
  sessions (state m) !! c = Some (InTransaction ws) ->
  plans_with n (view (state m) c) <> [] ->
  read (columns (state m) "exercise_name") (get "exercise_name" req_body) =
    inr name ->
  read (columns (state m) "sets") (get "sets" req_body) = inr count ->
  read (columns (state m) "repetitions") (get "repetitions" req_body) =
    inr times ->
  read (columns (state m) "notes") (get "notes" req_body) = inr text ->
  let r := serve h (create_exercise planId req_body) m in
  let created :=
    Exercise.Make (next_exercise (generators (state m))) n name count times
                  text in
  responses (trace r) =
    [(201, Json (JObj
       [("success", JVal (VBool true));
        ("message", JVal (VString "Exercise added to workout plan successfully."));
        ("exercise", JRow (Exercise.to_object created))]))] /\
  committed (state (final r)) = committed (state m) /\
  sessions (state (final r)) !! c = Some (InTransaction (ws ++ [AddExercise created])) /\
  (forall c', sessions (state m) !! c' = None ->
     view (state (final r)) c' = committed (state m)).
Proof.
  intros Hn Hc Hs Hp R1 R2 R3 R4 r created. subst r.
  unfold serve, create_exercise. cbn.
  rewrite (pool_exec_ok _ _ c) by done.
  rewrite exec_on_tables by (by rewrite ?Hs). cbn.
  rewrite (int_param_of_text _ _ Hn), R1, R2, R3, R4. cbn.
  destruct (decide _) as [E|_]; [done|]. cbn.
  unfold perform. rewrite Hs. cbn. split; [reflexivity|]. split; [reflexivity|].
  split; [by rewrite lookup_insert_eq|].
  intros c' Hc'. unfold view. cbn.
  rewrite lookup_insert_ne by congruence. by rewrite Hc'.
Qed.

(** ** The further properties on the sample *)

(** Listing exercises when the connection fails. *)
Lemma store_errors_collapse_witness :
  trace (serve Sample.hasher (list_exercises "1")
               (Sample.machine Runs.unreachable)) =
    [EvQuery (SelectExercises (VString "1")) (inl (PgError ConnectionFailure));
     EvLog (PgError ConnectionFailure);
     EvSend 500 (Json (failure "Internal Server Error"))].
Proof.
  unfold serve.
  rewrite (store_errors_collapse (H := pg_env Sample.hasher) [] "1"
             (Sample.machine Runs.unreachable)
             (Machine (Store Sample.tables ∅ (Seqs 2 3 3) Sample.typing) []
                      ["NaCl"] [(0%nat, SelectExercises (VString "1"))] [])
             (list_exercises "1") (SelectExercises (VString "1"))
             (PgError ConnectionFailure)).
  - reflexivity.
  - unfold guarded. do 4 apply list_elem_of_further. apply list_elem_of_here.
  - reflexivity.
Defined.

(** The deletion of the sample on one client sent 200, after [COMMIT]. *)
Lemma delete_success_only_after_commit_witness :
  exists b r1 r2 deleted r4,
    (200, b) ∈ responses (trace Sample.deleted_on_one_client) /\
    trace Sample.deleted_on_one_client =
      [EvQuery Begin (inr r1);
       EvQuery (DeleteExercises (VString "1")) (inr r2);
       EvQuery (DeleteWorkoutPlan (VString "1")) (inr deleted);
       EvQuery Commit (inr r4);
       EvSend 200 b].
Proof.
  eexists.
  assert (Hin : (200, Json (JObj [("success", JVal (VBool true));
                                  ("message", JVal (VString (deleted_message "1")))]))
                ∈ responses (trace Sample.deleted_on_one_client))
    by apply list_elem_of_here.
  destruct (delete_success_only_after_commit (H := pg_env Sample.hasher) "1"
              (Sample.machine Sample.one_client) 200 _ Hin)
    as (r1 & r2 & deleted & r4 & Ht & _); [discriminate|].
  exists r1, r2, deleted, r4. split; [exact Hin | exact Ht].
Defined.

(** The faulty deletion of plan 1 left plan 2 and the user alone. *)
Lemma deletion_touches_one_plan_witness :
  users (committed (state (final Sample.deleted_with_fault))) = [Sample.alice] /\
  plans_with 2 (committed (state (final Sample.deleted_with_fault))) =
    [Sample.pull_day].
Proof.
  destruct (deletion_touches_one_plan Sample.hasher
              (Sample.machine Sample.two_clients_fault) "1" 1 eq_refl eq_refl)
    as [Hu Hn].
  split; [exact Hu|]. destruct (Hn 2) as [Hp _]; [discriminate | exact Hp].
Defined.

(** Alice without a password: 500. *)
Lemma login_without_password_witness :
  responses (trace (serve Sample.hasher (login Runs.alice_without_password)
                          (Sample.machine []))) =
    [(500, Json (failure "Internal Server Error"))].
Proof.
  apply (login_without_password Sample.hasher (Sample.machine [])
           Runs.alice_without_password 0%nat).
  - intros s. discriminate.
  - reflexivity.
  - vm_compute. discriminate.
Defined.

(** A third plan for the user of the sample. *)
Lemma create_plan_then_list_witness :
  exists listed : list Plan.t,
    responses (trace (serve Sample.hasher (list_workout_plans "1")
        (final (serve Sample.hasher (create_workout_plan Runs.leg_day)
                      (Sample.machine Runs.two_calls))))) =
      [(200, Json (JRows (Plan.summary <$> listed)))] /\
    listed ≡ₚ
      [Sample.push_day; Sample.pull_day;
       Plan.Make 3 (Some 1) (VString "Leg day") (VString "Squats and lunges")].
Proof.
  destruct (create_plan_then_list Sample.hasher (Sample.machine Runs.two_calls)
              _ Runs.leg_day "1" 1 0%nat 1%nat [] _ eq_refl eq_refl eq_refl
              eq_refl eq_refl)
    as (created & listed & _ & Hid & Huser & _ & H201 & H200 & Hperm).
  exists listed. split; [exact H200|]. rewrite Hperm.
  destruct created as [i u name text]. cbn in Hid, Huser. subst i u.
  vm_compute in H201. by injection H201 as <- <-.
Defined.

(** Bob registers and logs in. *)
Lemma register_then_login_witness :
  users_named "bob" Sample.tables = [] /\
  responses (trace (serve Sample.hasher (login Sample.bob_registers)
      (final (serve Sample.hasher (register Sample.bob_registers)
                    (Sample.machine Runs.two_calls))))) =
    [(200, Json (JObj [("user", JRow [("id", VNumber 2);
                                      ("username", VString "bob");
                                      ("password", VString "$2b$10$NaClhunter2")]);
                       ("success", JVal (VBool true));
                       ("message", JVal (VString "Login successful"))]))].
Proof.
  split; [reflexivity|].
  apply (register_then_login Sample.hasher (Sample.machine Runs.two_calls)
           Sample.bob_registers "bob" "hunter2" 0%nat 1%nat []
           eq_refl eq_refl eq_refl eq_refl eq_refl).
Defined.

(** On one client, a deletion that fails leaves the sample as it was. *)
Lemma deletion_all_or_nothing_witness :
  committed (state (final (serve Sample.hasher (delete_workout_plan "1")
                                 (Sample.machine Runs.one_client_fault)))) =
    Sample.tables.
Proof.
  destruct (deletion_all_or_nothing Sample.hasher
              (Sample.machine Runs.one_client_fault) "1" 1 0%nat
              None None (Some ConnectionFailure) None None []
              eq_refl eq_refl eq_refl) as [[Hd _]|(_ & Hp & _)].
  - exact Hd.
  - vm_compute in Hp. discriminate Hp.
Defined.

(** After the deletion of plan 1 its exercises cannot be listed. *)
Lemma delete_then_list_exercises_witness :
  responses (trace (serve Sample.hasher (list_exercises "1")
      (final (serve Sample.hasher (delete_workout_plan "1")
                    (Sample.machine Runs.then_another))))) =
    [(200, Json (JRows []))].
Proof.
  apply (delete_then_list_exercises Sample.hasher
           (Sample.machine Runs.then_another) "1" 1 0%nat 1%nat []
           eq_refl eq_refl eq_refl).
Defined.

(** Plan 1 deleted twice: 404 the second time. *)
Lemma delete_twice_witness :
  responses (trace (serve Sample.hasher (delete_workout_plan "1")
      (final (serve Sample.hasher (delete_workout_plan "1")
                    (Sample.machine Runs.then_four_more))))) =
    [(404, Json (failure "Workout plan not found."))].
Proof.
  apply (delete_twice Sample.hasher (Sample.machine Runs.then_four_more) "1" 1
           0%nat 0%nat 1%nat 0%nat 1%nat [] eq_refl eq_refl eq_refl).
Defined.

(** In the faulty deletion of the sample the plan deletion was the third
    call. *)
Lemma plan_deleted_only_after_exercises_witness :
  exists rest,
    trace Sample.deleted_with_fault =
      EvQuery Begin (inr []) ::
      EvQuery (DeleteExercises (VString "1")) (inr []) ::
      EvQuery (DeleteWorkoutPlan (VString "1")) (inl (PgError ConnectionFailure)) ::
      rest.
Proof.
  assert (Hin : EvQuery (DeleteWorkoutPlan (VString "1"))
                        (inl (PgError ConnectionFailure))
                ∈ trace Sample.deleted_with_fault)
    by (do 2 apply list_elem_of_further; apply list_elem_of_here).
  destruct (plan_deleted_only_after_exercises (H := pg_env Sample.hasher) "1"
              (Sample.machine Sample.two_clients_fault) _ Hin)
    as (r1 & r2 & rest & Ht).
  exists rest.
  change (trace Sample.deleted_with_fault)
    with (trace (run (H := pg_env Sample.hasher) (delete_workout_plan "1")
                     (Sample.machine Sample.two_clients_fault))).
  rewrite Ht. vm_compute in Ht. injection Ht as <- <- _. reflexivity.
Defined.

(** An exercise created on the client of the leaked transaction: 201, and
    the row is not committed. *)
Lemma created_in_open_transaction_not_committed_witness :
  sessions (state Runs.leaked) !! 0%nat = Some (InTransaction [DelPlan 1]) /\
  responses (trace (serve Sample.hasher (create_exercise "2" Sample.squats)
                          Runs.leaked)) =
    [(201, Json (JObj
       [("success", JVal (VBool true));
        ("message", JVal (VString "Exercise added to workout plan successfully."));
        ("exercise",
         JRow [("exercise_id", VNumber 3); ("plan_id", VNumber 2);
               ("exercise_name", VString "Squat"); ("sets", VNumber 5);
               ("repetitions", VNumber 5);
               ("notes", VString "below parallel")])]))] /\
  exercise (committed (state (final
      (serve Sample.hasher (create_exercise "2" Sample.squats) Runs.leaked)))) =
    [].
Proof.
  assert (Hs : sessions (state Runs.leaked) !! 0%nat =
               Some (InTransaction [DelPlan 1])) by reflexivity.
  assert (Hp : plans_with 2 (view (state Runs.leaked) 0%nat) <> [])
    by (vm_compute; discriminate).
  destruct (created_in_open_transaction_not_committed Sample.hasher Runs.leaked
              "2" 2 Sample.squats 0%nat [DelPlan 1] (VString "Squat")
              (VNumber 5) (VNumber 5) (VString "below parallel")
              eq_refl eq_refl Hs Hp eq_refl eq_refl eq_refl eq_refl)
    as (Hr & Hc & _).
  split; [exact Hs|]. split; [exact Hr|]. rewrite Hc. reflexivity.
Defined.
